(** * single_image_run.py: download, data loaders, model factory, training loop

    A shallow embedding of [src/single_image_run.py].

    The script is glue around the Python standard library ([os], [shutil],
    [subprocess]), the kaggle command-line tool and PyTorch/torchvision.  None
    of those is part of the repository, so their operations are taken as an
    interface ([Class External]) over an abstract external state [ext] (file
    system, process table, tensors held by the model, the optimizer and the
    scheduler, random-number generators).  Everything the script itself
    decides is written out: the order of the calls, the early return, the two
    [raise] statements, the accumulators of the two passes, the four
    divisions, the comparison against [best_accuracy], what is printed and
    what is saved where.

    Conventions.
    - Python [int]s that count things are [nat] (they are unbounded and never
      negative here); [int]s that come from the command line are [Z].
    - Python [float]s are exact rationals [Q].  The only floats the control
      flow depends on are the accuracies [correct / total], quotients of two
      counts; Python rounds that quotient correctly, so the order of two
      accuracies is the order of the rationals (for counts below 2^53).
      A division by zero raises [ZeroDivisionError], as in Python, and is
      written out ([truediv]).
    - An exception leaves the effects that happened before it in place: a
      computation is a function [world -> result A * world].
    - The script is taken from [args = parser.parse_args()] on; the package
      check that runs when the module is imported has a section of its own
      ([Section Imports]).
    - Of the calls into torch, those that build objects from the command
      line can raise: the image folders, the data loaders and [nn.Linear].
      The calls of the training loop (iterating a loader, forward, loss,
      backward, the steps of the optimizer and the scheduler, [torch.save])
      are taken to return. *)

From Stdlib Require Import ZArith QArith Ascii String List Lia.
From stdpp Require Import gmap strings list.
Import ListNotations.

Close Scope Q_scope.
Open Scope string_scope.

(** ** Exceptions and results *)

Inductive exn :=
| ValueError (msg : string)
| ZeroDivisionError
| LibraryError (origin : string).   (* anything an external call raises *)

Inductive result (A : Type) :=
| Ok (a : A)
| Raise (e : exn).
Arguments Ok {A} a.
Arguments Raise {A} e.

Definition is_ok {A} (r : result A) : bool :=
  match r with Ok _ => true | Raise _ => false end.

(** ** Descriptions of the torch objects the script builds *)

Inductive arch := ResNet18 | ResNet50.

(** torchvision's pretrained weight sets; [weights=None] is [None] in
    [m_weights] below and means random initialisation. *)
Inductive pretrained_weights := IMAGENET1K_V1 | IMAGENET1K_V2.

#[warnings="-register-all"]
Inductive layer :=
| Linear (in_features : Z) (out_features : Z)
| Sequential (layers : list layer).

Record module := Module_ {
  m_arch : arch;
  m_weights : option pretrained_weights;  (* the [weights=] argument *)
  m_requires_grad : bool;         (* [requires_grad] of every parameter *)
  m_fc : layer                            (* [model.fc] *)
}.

(** torchvision: [resnet18().fc] is [Linear(512, 1000)], [resnet50().fc] is
    [Linear(2048, 1000)], and a fresh module has trainable parameters. *)
Definition models_resnet18 (weights : option pretrained_weights) : module :=
  Module_ ResNet18 weights true (Linear 512 1000).
Definition models_resnet50 (weights : option pretrained_weights) : module :=
  Module_ ResNet50 weights true (Linear 2048 1000).

(** [model.fc.in_features]; the attribute exists on a [Linear] only. *)
Definition fc_in_features (m : module) : Z :=
  match m_fc m with
  | Linear i _ => i
  | Sequential _ => 0
  end.

Definition is_pretrained (m : module) : bool :=
  match m_weights m with Some _ => true | None => false end.

Inductive criterion := CrossEntropyLoss.
Inductive optimizer := Adam (params_of : module).
Inductive scheduler :=
| ReduceLROnPlateau (opt : optimizer) (mode : string) (factor : Q) (patience : Z).
Inductive device := Cuda | Cpu.
#[warnings="-register-all"]
Inductive transform := ToTensor | Compose (ts : list transform).

Record Namespace := Args {
  kaggle_json : string;
  kaggle_dataset : string;
  output_dir : string;
  batch_size : Z;
  num_workers : Z;
  num_epochs : Z;
  model : string;
  num_classes : Z
}.

(** ** The external interface *)

Class External := {
  ext : Type;
  (* os, shutil, subprocess *)
  os_path_exists : string -> ext -> bool;
  os_listdir : string -> ext -> result (list string);
  os_path_expanduser : string -> ext -> string;
  os_makedirs_exist_ok : string -> ext -> option exn * ext;
  shutil_copy : string -> string -> ext -> option exn * ext;
  os_chmod : string -> Z -> ext -> option exn * ext;
  subprocess_run_check : list string -> ext -> option exn * ext;
  (* torchvision.datasets, torch.utils.data *)
  tensor : Type;
  dataset : Type;
  loader : Type;
  state_dict_t : Type;
  ImageFolder : string -> transform -> ext -> result dataset;
  DataLoader : dataset -> Z -> bool -> Z -> result loader;
  loader_len : loader -> nat;                                (* __len__ *)
  loader_iter : loader -> ext -> list (tensor * tensor) * ext;  (* __iter__ *)
  (* torch *)
  (* what [nn.Linear(in_features, out_features)] raises, if anything: torch
     refuses a negative size and a size it cannot allocate *)
  nn_Linear_raises : Z -> Z -> ext -> option exn;
  cuda_is_available : ext -> bool;
  module_to : module -> device -> ext -> ext;
  tensor_to : tensor -> device -> tensor;
  module_train : module -> ext -> ext;
  module_eval : module -> ext -> ext;
  set_grad_enabled : bool -> ext -> ext;
  is_grad_enabled : ext -> bool;
  zero_grad : optimizer -> ext -> ext;
  module_call : module -> tensor -> ext -> tensor * ext;
  criterion_call : criterion -> tensor -> tensor -> ext -> tensor * ext;
  backward : tensor -> ext -> ext;
  optimizer_step : optimizer -> ext -> ext;
  scheduler_step : scheduler -> Q -> ext -> ext;
  item : tensor -> Q;                                   (* loss.item() *)
  size0 : tensor -> nat;                                (* labels.size(0) *)
  (* (predicted == labels).sum().item() with _, predicted = torch.max(outputs, 1) *)
  count_correct : tensor -> tensor -> nat;
  state_dict : module -> ext -> state_dict_t
}.

Section Script.
Context `{External}.

(** ** What the script prints and what it asks of the outside world *)

Inductive message :=
| MsgArguments (args : Namespace)
| MsgDataExists (output_dir : string)
| MsgDownloading (kaggle_dataset output_dir : string)
| MsgDownloadCompleted
| MsgCreatingLoaders (batch_size num_workers : Z)
| MsgLoadersCreated
| MsgLoadingModel (model_name : string) (num_classes : Z)
| MsgModelLoaded
| MsgDevice (d : device)
| MsgTraining (num_epochs : Z)
| MsgEpoch (epoch1 num_epochs : Z) (train_loss train_acc test_loss test_acc : Q)
| MsgModelSaved (epoch1 : Z) (test_acc : Q)
| MsgTrainingCompleted.

(** Every call that can change the outside world, or that asks a loader for
    its batches, is recorded in order. *)
Inductive call :=
| OsMakedirs (path : string)
| ShutilCopy (src dst : string)
| OsChmod (path : string) (mode : Z)
| SubprocessRun (argv : list string)
| ModuleTo (m : module) (d : device)
| ModuleTrain (m : module)
| ModuleEval (m : module)
| NoGradEnter
| NoGradExit
| LoaderIter (l : loader) (batches : list (tensor * tensor))
| ZeroGrad (o : optimizer)
| Forward (m : module) (images : tensor)
| LossOf (c : criterion) (outputs labels : tensor)
| Backward (loss : tensor)
| OptimizerStep (o : optimizer)
| SchedulerStep (s : scheduler) (metric : Q)
| TorchSave (sd : state_dict_t) (path : string).

Record world := World {
  w_ext : ext;
  w_stdout : list message;               (* oldest first *)
  w_calls : list call;                   (* oldest first *)
  w_files : gmap string state_dict_t     (* files written by torch.save *)
}.

Definition set_ext (e : ext) (w : world) : world :=
  World e (w_stdout w) (w_calls w) (w_files w).
Definition add_call (c : call) (w : world) : world :=
  World (w_ext w) (w_stdout w) (w_calls w ++ [c]) (w_files w).
Definition add_line (m : message) (w : world) : world :=
  World (w_ext w) (w_stdout w ++ [m]) (w_calls w) (w_files w).
Definition write_file (p : string) (sd : state_dict_t) (w : world) : world :=
  World (w_ext w) (w_stdout w) (w_calls w) (<[p := sd]> (w_files w)).

(** ** The monad: state, output and exceptions *)

Definition M (A : Type) : Type := world -> result A * world.

Definition ret {A} (a : A) : M A := fun w => (Ok a, w).
Definition bind {A B} (c : M A) (k : A -> M B) : M B :=
  fun w => match c w with
           | (Ok a, w') => k a w'
           | (Raise e, w') => (Raise e, w')
           end.
Definition raise {A} (e : exn) : M A := fun w => (Raise e, w).

Notation "x <- c ;; k" := (bind c (fun x => k))
  (at level 100, c at next level, right associativity).
Notation "c ;; k" := (bind c (fun _ => k))
  (at level 100, right associativity).

Definition print (m : message) : M unit := fun w => (Ok tt, add_line m w).

(** A read of the outside world. *)
Definition ask {A} (f : ext -> A) : M A := fun w => (Ok (f (w_ext w)), w).
Definition ask_result {A} (f : ext -> result A) : M A := fun w => (f (w_ext w), w).

(** A call that changes the outside world and may raise. *)
Definition sys (c : call) (op : ext -> option exn * ext) : M unit :=
  fun w => let (r, e') := op (w_ext w) in
           let w' := add_call c (set_ext e' w) in
           match r with
           | None => (Ok tt, w')
           | Some e => (Raise e, w')
           end.

(** A call that changes the outside world and does not raise. *)
Definition eff (c : call) (op : ext -> ext) : M unit :=
  fun w => (Ok tt, add_call c (set_ext (op (w_ext w)) w)).

(** A call that changes the outside world and returns a value; the record of
    the call may mention the value. *)
Definition eff_val {A} (c : A -> call) (op : ext -> A * ext) : M A :=
  fun w => let (a, e') := op (w_ext w) in (Ok a, add_call (c a) (set_ext e' w)).

Definition lift_result {A} (r : result A) : M A := fun w => (r, w).

(** [with torch.no_grad(): body]: the previous mode is restored on the way
    out, also when [body] raises. *)
Definition with_no_grad {A} (body : M A) : M A :=
  fun w =>
    let prev := is_grad_enabled (w_ext w) in
    let w1 := add_call NoGradEnter (set_ext (set_grad_enabled false (w_ext w)) w) in
    let (r, w2) := body w1 in
    (r, add_call NoGradExit (set_ext (set_grad_enabled prev (w_ext w2)) w2)).

(** [torch.save(sd, path)] *)
Definition torch_save (sd : state_dict_t) (path : string) : M unit :=
  fun w => (Ok tt, add_call (TorchSave sd path) (write_file path sd w)).

(** [for x in xs: body], with the variables the body assigns threaded. *)
Fixpoint for_in {A S} (xs : list A) (body : A -> S -> M S) (s : S) : M S :=
  match xs with
  | [] => ret s
  | x :: xs' => s' <- body x s ;; for_in xs' body s'
  end.

(** [range(n)] *)
Definition range (n : Z) : list Z := map Z.of_nat (seq 0 (Z.to_nat n)).

(** [x / y] on numbers. *)
Definition truediv (x y : Q) : M Q :=
  if Qeq_bool y 0 then raise ZeroDivisionError else ret (x / y)%Q.

Definition Qnat (n : nat) : Q := inject_Z (Z.of_nat n).

(** [a > b] on floats. *)
Definition Qgtb (a b : Q) : bool := negb (Qle_bool a b).

(** [os.path.join(a, b)] for a relative [b]. *)
Definition ends_with_slash (a : string) : bool :=
  match String.get (String.length a - 1) a with
  | Some c => Ascii.eqb c "/"%char
  | None => false
  end.
Definition os_path_join (a b : string) : string :=
  if String.eqb a "" then b
  else if ends_with_slash a then a ++ b
  else a ++ "/" ++ b.

(** ** download_data_from_kaggle *)

(** [not kaggle_json_path]: [None] and the empty string are falsy. *)
Definition falsy (p : option string) : bool :=
  match p with
  | None => true
  | Some s => String.eqb s ""
  end.

Definition path_str (p : option string) : string :=
  match p with Some s => s | None => "" end.

Definition download_data_from_kaggle
    (kaggle_json_path : option string) (kaggle_dataset output_dir : string) : M unit :=
  present <- (ex <- ask (os_path_exists output_dir) ;;
              if ex : bool
              then l <- ask_result (os_listdir output_dir) ;;
                   ret (match l with [] => false | _ :: _ => true end)
              else ret false) ;;
  if present : bool then
    print (MsgDataExists output_dir) ;;
    ret tt
  else
    print (MsgDownloading kaggle_dataset output_dir) ;;
    if falsy kaggle_json_path then
      raise (ValueError "The path to kaggle.json must be provided.")
    else
      kaggle_dir <- ask (os_path_expanduser "~/.kaggle") ;;
      sys (OsMakedirs kaggle_dir) (os_makedirs_exist_ok kaggle_dir) ;;
      sys (ShutilCopy (path_str kaggle_json_path) (os_path_join kaggle_dir "kaggle.json"))
          (shutil_copy (path_str kaggle_json_path) (os_path_join kaggle_dir "kaggle.json")) ;;
      sys (OsChmod (os_path_join kaggle_dir "kaggle.json") 384)
          (os_chmod (os_path_join kaggle_dir "kaggle.json") 384) ;;
      sys (SubprocessRun ["kaggle"; "datasets"; "download"; "-d"; kaggle_dataset;
                          "-p"; output_dir; "--unzip"])
          (subprocess_run_check ["kaggle"; "datasets"; "download"; "-d"; kaggle_dataset;
                                 "-p"; output_dir; "--unzip"]) ;;
      print MsgDownloadCompleted.

(** ** get_model *)

(** [nn.Linear(in_features, out_features)] *)
Definition nn_Linear (in_features out_features : Z) : M layer :=
  r <- ask (nn_Linear_raises in_features out_features) ;;
  match r with
  | Some ex => raise ex
  | None => ret (Linear in_features out_features)
  end.

Definition get_model (model_name : string) (num_classes : Z) : M module :=
  print (MsgLoadingModel model_name num_classes) ;;
  model <- (if String.eqb model_name "resnet18" then ret (models_resnet18 None)
            else if String.eqb model_name "resnet50" then ret (models_resnet50 None)
            else raise (ValueError ("Unsupported model: " ++ model_name))) ;;
  let model := Module_ (m_arch model) (m_weights model) true (m_fc model) in
  let num_ftrs := fc_in_features model in
  linear <- nn_Linear num_ftrs num_classes ;;
  let model := Module_ (m_arch model) (m_weights model) (m_requires_grad model)
                       (Sequential [linear]) in
  print MsgModelLoaded ;;
  ret model.

(** ** create_dataloaders *)

Definition create_dataloaders (output_dir : string) (batch_size num_workers : Z)
  : M (loader * loader) :=
  print (MsgCreatingLoaders batch_size num_workers) ;;
  let transform := Compose [ToTensor] in
  let train_dir := os_path_join output_dir "train" in
  let test_dir := os_path_join output_dir "test" in
  train_dataset <- ask_result (ImageFolder train_dir transform) ;;
  test_dataset <- ask_result (ImageFolder test_dir transform) ;;
  train_loader <- lift_result (DataLoader train_dataset batch_size true num_workers) ;;
  test_loader <- lift_result (DataLoader test_dataset batch_size false num_workers) ;;
  print MsgLoadersCreated ;;
  ret (train_loader, test_loader).

(** ** train_and_test_model *)

(** The local variables of [train_and_test_model] that outlive an iteration
    of the epoch loop: [best_accuracy], and [test_accuracy], which is unbound
    until the first epoch has computed it. *)
Record frame := Frame {
  best_accuracy : Q;
  test_accuracy : option Q
}.

(** The body of [for images, labels in train_loader]. *)
Definition train_batch (model : module) (criterion : criterion) (optimizer : optimizer)
    (device : device) (batch : tensor * tensor) (acc : Q * nat * nat) : M (Q * nat * nat) :=
  let '(images, labels) := batch in
  let '(running_loss, correct, total) := acc in
  let images := tensor_to images device in
  let labels := tensor_to labels device in
  eff (ZeroGrad optimizer) (zero_grad optimizer) ;;
  outputs <- eff_val (fun _ => Forward model images) (module_call model images) ;;
  loss <- eff_val (fun _ => LossOf criterion outputs labels)
                  (criterion_call criterion outputs labels) ;;
  eff (Backward loss) (backward loss) ;;
  eff (OptimizerStep optimizer) (optimizer_step optimizer) ;;
  let running_loss := (running_loss + item loss)%Q in
  let total := total + size0 labels in
  let correct := correct + count_correct outputs labels in
  ret (running_loss, correct, total).

(** The body of [for images, labels in test_loader]. *)
Definition test_batch (model : module) (criterion : criterion)
    (device : device) (batch : tensor * tensor) (acc : nat * nat * Q) : M (nat * nat * Q) :=
  let '(images, labels) := batch in
  let '(test_correct, test_total, test_loss) := acc in
  let images := tensor_to images device in
  let labels := tensor_to labels device in
  outputs <- eff_val (fun _ => Forward model images) (module_call model images) ;;
  loss <- eff_val (fun _ => LossOf criterion outputs labels)
                  (criterion_call criterion outputs labels) ;;
  let test_loss := (test_loss + item loss)%Q in
  let test_total := test_total + size0 labels in
  let test_correct := test_correct + count_correct outputs labels in
  ret (test_correct, test_total, test_loss).

(** The body of [for epoch in range(num_epochs)]. *)
Definition epoch_body (model : module) (train_loader test_loader : loader)
    (criterion : criterion) (optimizer : optimizer) (scheduler : option scheduler)
    (device : device) (num_epochs : Z) (epoch : Z) (locals : frame) : M frame :=
  let best_accuracy := best_accuracy locals in
  eff (ModuleTrain model) (module_train model) ;;
  batches <- eff_val (LoaderIter train_loader) (loader_iter train_loader) ;;
  acc <- for_in batches (train_batch model criterion optimizer device) (0%Q, 0, 0) ;;
  let '(running_loss, correct, total) := acc in
  epoch_loss <- truediv running_loss (Qnat (loader_len train_loader)) ;;
  epoch_acc <- truediv (Qnat correct) (Qnat total) ;;
  eff (ModuleEval model) (module_eval model) ;;
  acc <- with_no_grad (
    batches <- eff_val (LoaderIter test_loader) (loader_iter test_loader) ;;
    for_in batches (test_batch model criterion device) (0, 0, 0%Q)) ;;
  let '(test_correct, test_total, test_loss) := acc in
  test_loss <- truediv test_loss (Qnat (loader_len test_loader)) ;;
  test_accuracy <- truediv (Qnat test_correct) (Qnat test_total) ;;
  print (MsgEpoch (epoch + 1) num_epochs epoch_loss epoch_acc test_loss test_accuracy) ;;
  match scheduler with
  | Some s => eff (SchedulerStep s test_loss) (scheduler_step s test_loss)
  | None => ret tt
  end ;;
  if Qgtb test_accuracy best_accuracy then
    let best_accuracy := test_accuracy in
    sd <- ask (state_dict model) ;;
    torch_save sd "best_model.pth" ;;
    print (MsgModelSaved (epoch + 1) test_accuracy) ;;
    ret (Frame best_accuracy (Some test_accuracy))
  else
    ret (Frame best_accuracy (Some test_accuracy)).

Definition train_and_test_model (model : module) (train_loader test_loader : loader)
    (criterion : criterion) (optimizer : optimizer) (scheduler : option scheduler)
    (device : device) (num_epochs : Z) : M unit :=
  print (MsgTraining num_epochs) ;;
  let best_accuracy := 0%Q in
  for_in (range num_epochs)
         (epoch_body model train_loader test_loader criterion optimizer scheduler
                     device num_epochs)
         (Frame best_accuracy None) ;;
  print MsgTrainingCompleted.

(** ** The script proper, after [parser.parse_args()] *)

Definition main (args : Namespace) : M unit :=
  print (MsgArguments args) ;;
  download_data_from_kaggle (Some (kaggle_json args)) (kaggle_dataset args)
                            (output_dir args) ;;
  loaders <- create_dataloaders (output_dir args) (batch_size args) (num_workers args) ;;
  let '(train_loader, test_loader) := loaders in
  custom_resnet <- get_model (model args) (num_classes args) ;;
  let criterion := CrossEntropyLoss in
  let optimizer := Adam custom_resnet in
  let scheduler := ReduceLROnPlateau optimizer "min" (1 # 10) 3 in
  cuda <- ask cuda_is_available ;;
  let device := if cuda : bool then Cuda else Cpu in
  eff (ModuleTo custom_resnet device) (module_to custom_resnet device) ;;
  print (MsgDevice device) ;;
  train_and_test_model custom_resnet train_loader test_loader criterion optimizer
                       (Some scheduler) device (num_epochs args).

(** ** Vocabulary for the properties *)

(** The calls made and the lines printed between two worlds of one run. *)
Definition new_calls (w w' : world) : list call :=
  drop (length (w_calls w)) (w_calls w').
Definition new_lines (w w' : world) : list message :=
  drop (length (w_stdout w)) (w_stdout w').

(** A call that writes to the file system or starts a process. *)
Definition os_call (c : call) : bool :=
  match c with
  | OsMakedirs _ | ShutilCopy _ _ | OsChmod _ _ | SubprocessRun _ => true
  | _ => false
  end.

(** A computation that makes only calls satisfying [P], whether it returns
    or raises. *)
Definition makes_only {A} (P : call -> Prop) (c : M A) : Prop :=
  forall w, exists cs,
    w_calls (snd (c w)) = (w_calls w ++ cs)%list /\ Forall P cs.

(** [m] is a module [get_model model_name num_classes] returns. *)
Definition built_by_get_model (model_name : string) (num_classes : Z) (m : module) : Prop :=
  exists w, fst (get_model model_name num_classes w) = Ok m.

(** The calls [main] may make: the download's calls to the operating
    system, and calls on the model [get_model] built, on an Adam optimizer
    over it, and on the loaders. *)
Definition main_call (args : Namespace) (c : call) : Prop :=
  match c with
  | OsMakedirs _ | ShutilCopy _ _ | OsChmod _ _ | SubprocessRun _ => True
  | ModuleTo m _ | ModuleTrain m | ModuleEval m | Forward m _ =>
      built_by_get_model (model args) (num_classes args) m
  | ZeroGrad o | OptimizerStep o =>
      exists m, o = Adam m /\ built_by_get_model (model args) (num_classes args) m
  | TorchSave _ path => path = "best_model.pth"
  | LoaderIter _ _ | NoGradEnter | NoGradExit | LossOf _ _ _ | Backward _
  | SchedulerStep _ _ => True
  end.

Section Training.
Variables (model : module) (train_loader test_loader : loader)
          (criterion : criterion) (optimizer : optimizer)
          (scheduler : option scheduler) (device : device) (num_epochs : Z).

(** [train_and_test_model] cut after the first [k] iterations of its epoch
    loop: the frame and the world at that point. *)
Definition after_epochs (k : nat) : M frame :=
  print (MsgTraining num_epochs) ;;
  for_in (range (Z.of_nat k))
         (epoch_body model train_loader test_loader criterion optimizer scheduler
                     device num_epochs)
         (Frame 0%Q None).

(** The test accuracy computed in epoch [e] (epochs count from 0). *)
Definition accuracy_of (w0 : world) (e : nat) : option Q :=
  match after_epochs (S e) w0 with
  | (Ok locals, _) => test_accuracy locals
  | (Raise _, _) => None
  end.

(** The calls made and the lines printed during epoch [e]. *)
Definition calls_of (w0 : world) (e : nat) : list call :=
  new_calls (snd (after_epochs e w0)) (snd (after_epochs (S e) w0)).
Definition lines_of (w0 : world) (e : nat) : list message :=
  new_lines (snd (after_epochs e w0)) (snd (after_epochs (S e) w0)).

(** The checkpoint file is written in epoch [e]. *)
Definition checkpoint_written (w0 : world) (e : nat) : Prop :=
  exists sd, In (TorchSave sd "best_model.pth") (calls_of w0 e).

(** The parameters of the model at the end of epoch [e]. *)
Definition parameters_of (w0 : world) (e : nat) : state_dict_t :=
  state_dict model (w_ext (snd (after_epochs (S e) w0))).

(** The number of samples in a sequence of batches, as the loop counts them. *)
Definition samples (batches : list (tensor * tensor)) : nat :=
  list_sum (map (fun b => size0 (tensor_to (snd b) device)) batches).

(** A loader has at least one batch, and the batches it yields hold at least
    one sample. *)
Definition nonempty (l : loader) : Prop :=
  0 < loader_len l /\ forall e, 0 < samples (fst (loader_iter l e)).

(** The calls of one training step and of one evaluation step on a batch. *)
Definition train_step (batch : tensor * tensor) (cs : list call) : Prop :=
  exists outputs loss,
    cs = [ZeroGrad optimizer;
          Forward model (tensor_to (fst batch) device);
          LossOf criterion outputs (tensor_to (snd batch) device);
          Backward loss;
          OptimizerStep optimizer].
Definition eval_step (batch : tensor * tensor) (cs : list call) : Prop :=
  exists outputs,
    cs = [Forward model (tensor_to (fst batch) device);
          LossOf criterion outputs (tensor_to (snd batch) device)].

(** The calls that end an epoch: the scheduler, then possibly the save. *)
Definition closing_call (c : call) : Prop :=
  match c with
  | SchedulerStep s _ => scheduler = Some s
  | TorchSave _ path => path = "best_model.pth"
  | _ => False
  end.

(** The calls the training loop may make: on the objects it was given, and
    saving to one path only. *)
Definition training_call (c : call) : Prop :=
  match c with
  | ModuleTrain m | ModuleEval m | Forward m _ => m = model
  | ZeroGrad o | OptimizerStep o => o = optimizer
  | LossOf c _ _ => c = criterion
  | SchedulerStep s _ => scheduler = Some s
  | LoaderIter l _ => l = train_loader \/ l = test_loader
  | NoGradEnter | NoGradExit | Backward _ => True
  | TorchSave _ path => path = "best_model.pth"
  | OsMakedirs _ | ShutilCopy _ _ | OsChmod _ _ | SubprocessRun _ | ModuleTo _ _ => False
  end.

(** A call of the training loop other than a save. *)
Definition quiet_call (c : call) : Prop :=
  training_call c /\ forall sd p, c <> TorchSave sd p.

(** The shape of the calls of one epoch: a pass over the batches the training
    loader yielded, one training step each, then, with gradients off, a pass
    over the batches the test loader yielded, one evaluation step each. *)
Definition epoch_shape (cs : list call) : Prop :=
  exists train_batches train_steps test_batches test_steps closing,
    cs = ([ModuleTrain model; LoaderIter train_loader train_batches]
          ++ concat train_steps
          ++ [ModuleEval model; NoGradEnter; LoaderIter test_loader test_batches]
          ++ concat test_steps
          ++ [NoGradExit]
          ++ closing)%list
    /\ Forall2 train_step train_batches train_steps
    /\ Forall2 eval_step test_batches test_steps
    /\ Forall closing_call closing.

(** The lines of epoch [e], whose test accuracy is [test_acc]: its metrics,
    then possibly the notice of the save. *)
Definition epoch_lines (e : nat) (test_acc : Q) (ls : list message) : Prop :=
  exists train_loss train_acc test_loss,
    ls = [MsgEpoch (Z.of_nat e + 1) num_epochs train_loss train_acc test_loss test_acc]
    \/ ls = [MsgEpoch (Z.of_nat e + 1) num_epochs train_loss train_acc test_loss test_acc;
             MsgModelSaved (Z.of_nat e + 1) test_acc].

(** What an epoch that raises leaves behind: nothing printed, no file
    written, no save among its calls, and one of the four divisors was 0. *)
Definition epoch_raised (w w' : world) : Prop :=
  w_stdout w' = w_stdout w
  /\ w_files w' = w_files w
  /\ (exists cs, w_calls w' = (w_calls w ++ cs)%list /\ Forall quiet_call cs)
  /\ (loader_len train_loader = 0
      \/ loader_len test_loader = 0
      \/ (exists x, samples (fst (loader_iter train_loader x)) = 0)
      \/ (exists x, samples (fst (loader_iter test_loader x)) = 0)).

(** What an epoch that completes has done. *)
Definition epoch_done (e : Z) (locals : frame) (w : world)
    (locals' : frame) (w' : world) : Prop :=
  exists train_batches test_batches train_steps test_steps x1 x2
         train_loss train_acc test_loss test_correct,
    let acc := (Qnat test_correct / Qnat (samples test_batches))%Q in
    let calls :=
      ([ModuleTrain model; LoaderIter train_loader train_batches]
       ++ concat train_steps
       ++ [ModuleEval model; NoGradEnter; LoaderIter test_loader test_batches]
       ++ concat test_steps
       ++ [NoGradExit]
       ++ match scheduler with
          | Some s => [SchedulerStep s test_loss]
          | None => []
          end)%list in
    let line := MsgEpoch (e + 1) num_epochs train_loss train_acc test_loss acc in
    train_batches = fst (loader_iter train_loader x1)
    /\ test_batches = fst (loader_iter test_loader x2)
    /\ 0 < loader_len train_loader /\ 0 < samples train_batches
    /\ 0 < loader_len test_loader /\ 0 < samples test_batches
    /\ Forall2 train_step train_batches train_steps
    /\ Forall2 eval_step test_batches test_steps
    /\ test_accuracy locals' = Some acc
    /\ if Qgtb acc (best_accuracy locals)
       then best_accuracy locals' = acc
            /\ w_calls w' = (w_calls w ++ calls
                              ++ [TorchSave (state_dict model (w_ext w')) "best_model.pth"])%list
            /\ w_stdout w' = (w_stdout w ++ [line; MsgModelSaved (e + 1) acc])%list
            /\ w_files w' = <["best_model.pth" := state_dict model (w_ext w')]> (w_files w)
       else best_accuracy locals' = best_accuracy locals
            /\ w_calls w' = (w_calls w ++ calls)%list
            /\ w_stdout w' = (w_stdout w ++ [line])%list
            /\ w_files w' = w_files w.

(** *** What an epoch is to do

    A second account of one epoch of [train_and_test_model], written as
    functions of the outside world [x] in which the epoch starts and not as
    a program: the batches each loader yields, the steps taken on them, the
    four metrics, the calls in order, and the outside world at the end.  The
    properties compare [epoch_body] with it. *)

(** What one step on a batch does: its calls, what it adds to the sums of
    its pass, and the outside world it leaves. *)
Record batch_step := BatchStep {
  step_calls : list call;
  step_loss : Q;          (* loss.item() *)
  step_correct : nat;     (* predictions that equal their label *)
  step_size : nat;        (* labels.size(0) *)
  step_ext : ext
}.

(** A training step: the gradients are cleared, the model is applied to the
    images, the loss is taken against the labels and propagated back, and
    the optimizer takes one step. *)
Definition training_step (x : ext) (batch : tensor * tensor) : batch_step :=
  let images := tensor_to (fst batch) device in
  let labels := tensor_to (snd batch) device in
  let forward := module_call model images (zero_grad optimizer x) in
  let loss := criterion_call criterion (fst forward) labels (snd forward) in
  BatchStep [ZeroGrad optimizer;
             Forward model images;
             LossOf criterion (fst forward) labels;
             Backward (fst loss);
             OptimizerStep optimizer]
            (item (fst loss))
            (count_correct (fst forward) labels)
            (size0 labels)
            (optimizer_step optimizer (backward (fst loss) (snd loss))).

(** An evaluation step: the model is applied to the images and the loss is
    taken against the labels; nothing is propagated back and no optimizer
    steps. *)
Definition evaluation_step (x : ext) (batch : tensor * tensor) : batch_step :=
  let images := tensor_to (fst batch) device in
  let labels := tensor_to (snd batch) device in
  let forward := module_call model images x in
  let loss := criterion_call criterion (fst forward) labels (snd forward) in
  BatchStep [Forward model images;
             LossOf criterion (fst forward) labels]
            (item (fst loss))
            (count_correct (fst forward) labels)
            (size0 labels)
            (snd loss).

(** A pass: one step per batch, in the order of the batches, each step
    starting in the outside world the step before it left. *)
Fixpoint pass (one : ext -> tensor * tensor -> batch_step) (x : ext)
    (batches : list (tensor * tensor)) : list batch_step :=
  match batches with
  | [] => []
  | b :: bs => one x b :: pass one (step_ext (one x b)) bs
  end.

(** The outside world after the steps of a pass that started in [x], and the
    sums of the pass. *)
Definition pass_end (x : ext) (steps : list batch_step) : ext :=
  fold_left (fun _ s => step_ext s) steps x.
Definition pass_loss (steps : list batch_step) : Q :=
  fold_left (fun a s => (a + step_loss s)%Q) steps 0%Q.
Definition pass_correct (steps : list batch_step) : nat :=
  fold_left (fun a s => a + step_correct s) steps 0.
Definition pass_size (steps : list batch_step) : nat :=
  fold_left (fun a s => a + step_size s) steps 0.

(** The training pass of an epoch that starts in [x]: the model is put in
    training mode, then the training loader is asked for its batches. *)
Definition train_pass_batches (x : ext) : list (tensor * tensor) :=
  fst (loader_iter train_loader (module_train model x)).
Definition train_pass_steps (x : ext) : list batch_step :=
  pass training_step (snd (loader_iter train_loader (module_train model x)))
       (train_pass_batches x).
Definition train_pass_end (x : ext) : ext :=
  pass_end (snd (loader_iter train_loader (module_train model x))) (train_pass_steps x).

(** The test pass: the model is put in evaluation mode and gradients are
    switched off, then the test loader is asked for its batches; after the
    pass the gradient mode is what it was. *)
Definition test_pass_start (x : ext) : ext :=
  set_grad_enabled false (module_eval model (train_pass_end x)).
Definition test_pass_batches (x : ext) : list (tensor * tensor) :=
  fst (loader_iter test_loader (test_pass_start x)).
Definition test_pass_steps (x : ext) : list batch_step :=
  pass evaluation_step (snd (loader_iter test_loader (test_pass_start x)))
       (test_pass_batches x).
Definition test_pass_end (x : ext) : ext :=
  set_grad_enabled (is_grad_enabled (module_eval model (train_pass_end x)))
    (pass_end (snd (loader_iter test_loader (test_pass_start x))) (test_pass_steps x)).

(** The four metrics of the epoch: the mean loss per batch and the share of
    correct predictions, on the training pass and on the test pass. *)
Definition epoch_train_loss (x : ext) : Q :=
  (pass_loss (train_pass_steps x) / Qnat (loader_len train_loader))%Q.
Definition epoch_train_accuracy (x : ext) : Q :=
  (Qnat (pass_correct (train_pass_steps x)) / Qnat (pass_size (train_pass_steps x)))%Q.
Definition epoch_test_loss (x : ext) : Q :=
  (pass_loss (test_pass_steps x) / Qnat (loader_len test_loader))%Q.
Definition epoch_test_accuracy (x : ext) : Q :=
  (Qnat (pass_correct (test_pass_steps x)) / Qnat (pass_size (test_pass_steps x)))%Q.

(** The metrics line of epoch [e] (epochs count from 0, the line counts from
    1). *)
Definition epoch_metrics (e : nat) (x : ext) : message :=
  MsgEpoch (Z.of_nat e + 1) num_epochs
           (epoch_train_loss x) (epoch_train_accuracy x)
           (epoch_test_loss x) (epoch_test_accuracy x).

(** The scheduler, when there is one, sees the test loss. *)
Definition epoch_scheduler_calls (x : ext) : list call :=
  match scheduler with
  | Some s => [SchedulerStep s (epoch_test_loss x)]
  | None => []
  end.
Definition epoch_end (x : ext) : ext :=
  match scheduler with
  | Some s => scheduler_step s (epoch_test_loss x) (test_pass_end x)
  | None => test_pass_end x
  end.

(** The calls of the epoch, the save apart. *)
Definition epoch_calls (x : ext) : list call :=
  ([ModuleTrain model; LoaderIter train_loader (train_pass_batches x)]
   ++ concat (map step_calls (train_pass_steps x))
   ++ [ModuleEval model; NoGradEnter; LoaderIter test_loader (test_pass_batches x)]
   ++ concat (map step_calls (test_pass_steps x))
   ++ [NoGradExit]
   ++ epoch_scheduler_calls x)%list.

(** The four divisors of the epoch. *)
Definition epoch_divisors_positive (x : ext) : Prop :=
  0 < loader_len train_loader
  /\ 0 < pass_size (train_pass_steps x)
  /\ 0 < loader_len test_loader
  /\ 0 < pass_size (test_pass_steps x).

End Training.

End Script.

(** ** The package check that runs when the module is loaded

    Lines 13 to 40 of the script: [install_and_import] and the loop over
    [required_packages].  They run before [main], print plain strings and
    talk to the import system and to pip, so they get a state of their own:
    the interpreter (an interface again), the lines printed, the commands
    run, and [globals()], a dictionary from names to modules. *)

Class Python := {
  env : Type;                       (* sys.modules, site-packages, ... *)
  pymodule : Type;
  builtin_import : string -> env -> result pymodule * env;   (* __import__(name) *)
  check_call : list string -> env -> option exn * env;  (* subprocess.check_call *)
  sys_executable : string
}.

(** [except ImportError] catches [ImportError] and its subclass
    [ModuleNotFoundError]; an exception of a library is [LibraryError] with
    the name of its class. *)
Definition is_import_error (e : exn) : bool :=
  match e with
  | LibraryError origin =>
      String.eqb origin "ImportError" || String.eqb origin "ModuleNotFoundError"
  | _ => false
  end.

(** ["." in s] *)
Fixpoint contains_dot (s : string) : bool :=
  match s with
  | EmptyString => false
  | String c rest => Ascii.eqb c "."%char || contains_dot rest
  end.

(** [s.split(".")[0]] *)
Fixpoint before_first_dot (s : string) : string :=
  match s with
  | EmptyString => EmptyString
  | String c rest => if Ascii.eqb c "."%char then EmptyString
                     else String c (before_first_dot rest)
  end.

(** [top] is the top-level package of the entry [package]: the entry itself
    when it has no dot, and otherwise what stands before its first dot. *)
Definition top_level_of (package top : string) : Prop :=
  contains_dot top = false
  /\ (package = top \/ exists rest, package = top ++ "." ++ rest).

Definition required_packages : list string :=
  ["argparse"; "kaggle"; "os"; "subprocess"; "torch"; "torch.nn"; "torch.optim";
   "torch.utils.data"; "torchvision.transforms"; "torchvision.datasets";
   "torchvision.models"].

Section Imports.
Context `{Python}.

Record pystate := PyState {
  py_env : env;
  py_stdout : list string;                (* oldest first *)
  py_runs : list (list string);           (* commands run, oldest first *)
  py_globals : gmap string pymodule       (* globals() *)
}.

Definition P (A : Type) : Type := pystate -> result A * pystate.

Definition pret {A} (a : A) : P A := fun s => (Ok a, s).
Definition pbind {A B} (c : P A) (k : A -> P B) : P B :=
  fun s => match c s with
           | (Ok a, s') => k a s'
           | (Raise e, s') => (Raise e, s')
           end.

Notation "x <- c ;; k" := (pbind c (fun x => k))
  (at level 100, c at next level, right associativity).
Notation "c ;; k" := (pbind c (fun _ => k))
  (at level 100, right associativity).

Definition pprint (line : string) : P unit :=
  fun s => (Ok tt, PyState (py_env s) (py_stdout s ++ [line]) (py_runs s) (py_globals s)).

(** [__import__(name)] *)
Definition import_ (name : string) : P pymodule :=
  fun s => let (r, e') := builtin_import name (py_env s) in
           (r, PyState e' (py_stdout s) (py_runs s) (py_globals s)).

(** [subprocess.check_call(argv)] *)
Definition run_check_call (argv : list string) : P unit :=
  fun s => let (r, e') := check_call argv (py_env s) in
           let s' := PyState e' (py_stdout s) (py_runs s ++ [argv]) (py_globals s) in
           match r with
           | None => (Ok tt, s')
           | Some e => (Raise e, s')
           end.

(** [globals()[name] = m] *)
Definition set_global (name : string) (m : pymodule) : P unit :=
  fun s => (Ok tt, PyState (py_env s) (py_stdout s) (py_runs s)
                           (<[name := m]> (py_globals s))).

(** [try: body / except ImportError: handler] *)
Definition try_except_import {A} (body handler : P A) : P A :=
  fun s => match body s with
           | (Ok a, s') => (Ok a, s')
           | (Raise e, s') => if is_import_error e then handler s' else (Raise e, s')
           end.

(** [try: body / finally: final]: [final] always runs; what it raises replaces
    the outcome of [body], otherwise that outcome stands. *)
Definition try_finally {A} (body : P A) (final : P unit) : P A :=
  fun s => let (r, s1) := body s in
           match final s1 with
           | (Ok _, s2) => (r, s2)
           | (Raise e, s2) => (Raise e, s2)
           end.

(** [for x in xs: body] *)
Fixpoint for_each {A} (xs : list A) (body : A -> P unit) : P unit :=
  match xs with
  | [] => pret tt
  | x :: xs' => body x ;; for_each xs' body
  end.

Definition pip_install (package : string) : list string :=
  [sys_executable; "-m"; "pip"; "install"; package].

Definition install_and_import (package : string) : P unit :=
  try_finally
    (try_except_import
       (_ <- import_ package ;; pret tt)
       (pprint ("Installing " ++ package ++ "...") ;;
        run_check_call (pip_install package)))
    (m <- import_ package ;; set_global package m).

(** Whether [install_and_import package], started in [s], goes through its
    [except ImportError] branch. *)
Definition first_import_fails (package : string) (s : pystate) : bool :=
  match fst (builtin_import package (py_env s)) with
  | Raise ex => is_import_error ex
  | Ok _ => false
  end.

(** The body of [for package in required_packages]. *)
Definition check_package (package : string) : P unit :=
  let package := if contains_dot package then before_first_dot package else package in
  install_and_import package.

Definition check_required_packages : P unit :=
  for_each required_packages check_package.

End Imports.

(** ** More vocabulary for the properties *)

Section Vocabulary.
Context `{External}.

Definition is_scheduler_step (c : call) : bool :=
  match c with
  | SchedulerStep _ _ => true
  | _ => false
  end.

(** The calls of a download that goes all the way, in order. *)
Definition download_steps (kaggle_json_path : option string)
    (kaggle_dataset output_dir : string) (e : ext) : list call :=
  let kaggle_dir := os_path_expanduser "~/.kaggle" e in
  [OsMakedirs kaggle_dir;
   ShutilCopy (path_str kaggle_json_path) (os_path_join kaggle_dir "kaggle.json");
   OsChmod (os_path_join kaggle_dir "kaggle.json") 384;
   SubprocessRun ["kaggle"; "datasets"; "download"; "-d"; kaggle_dataset;
                  "-p"; output_dir; "--unzip"]].

End Vocabulary.

(** ** A small executable instance of the interface

    Used to run the script on concrete inputs.  The file system is a map from
    directories to their entries; a tensor is a list of numbers (a batch of
    images is the list of their ids, a batch of labels the list of their
    classes); the "network" predicts the class [(id + steps) mod 3], where
    [steps] counts the optimizer steps taken so far, and its state dict is
    that count. *)
Module Toy.

Record state := State {
  dirs : gmap string (list string);
  steps : nat;
  grad : bool
}.

Definition expanduser (p : string) : string :=
  match p with
  | String "~"%char rest => "/home/user" ++ rest
  | _ => p
  end.

Definition makedirs (p : string) (s : state) : option exn * state :=
  match dirs s !! p with
  | Some _ => (None, s)
  | None => (None, State (<[p := []]> (dirs s)) (steps s) (grad s))
  end.

Definition run_kaggle (argv : list string) (s : state) : option exn * state :=
  (None, State (<[nth 6 argv "" := ["train"; "test"]]> (dirs s)) (steps s) (grad s)).

Definition sample := (nat * nat)%type.

Definition image_folder (root : string) (s : state) : result (list sample) :=
  match dirs s !! root with
  | Some _ => Ok [(0, 0); (1, 1); (2, 2); (3, 0)]
  | None => Raise (LibraryError "FileNotFoundError")
  end.

(** One batch per sample is enough here: [batch_size] only has to be
    positive. *)
Definition data_loader (ds : list sample) (batch_size : Z) : result (list (list nat * list nat)) :=
  if (batch_size <=? 0)%Z then Raise (ValueError "batch_size should be a positive integer")
  else Ok (map (fun s => ([fst s], [snd s])) ds).

Definition predict (steps : nat) (images : list nat) : list nat :=
  map (fun x => (x + steps) mod 3) images.

Fixpoint agree (xs ys : list nat) : nat :=
  match xs, ys with
  | x :: xs', y :: ys' => (if Nat.eqb x y then 1 else 0) + agree xs' ys'
  | _, _ => 0
  end.

(** torch refuses a layer with a negative number of outputs. *)
Definition linear_raises (in_features out_features : Z) (s : state) : option exn :=
  if (out_features <? 0)%Z then Some (LibraryError "RuntimeError") else None.

#[export] Instance toy : External := {|
  ext := state;
  os_path_exists p s := bool_decide (is_Some (dirs s !! p));
  os_listdir p s := match dirs s !! p with
                    | Some l => Ok l
                    | None => Raise (LibraryError "FileNotFoundError")
                    end;
  os_path_expanduser p _ := expanduser p;
  os_makedirs_exist_ok := makedirs;
  shutil_copy _ _ s := (None, s);
  os_chmod _ _ s := (None, s);
  subprocess_run_check := run_kaggle;
  tensor := list nat;
  dataset := list sample;
  loader := list (list nat * list nat);
  state_dict_t := nat;
  ImageFolder root _ s := image_folder root s;
  DataLoader ds bs _ _ := data_loader ds bs;
  loader_len l := length l;
  loader_iter l s := (l, s);
  nn_Linear_raises := linear_raises;
  cuda_is_available _ := false;
  module_to _ _ s := s;
  tensor_to t _ := t;
  module_train _ s := s;
  module_eval _ s := s;
  set_grad_enabled b s := State (dirs s) (steps s) b;
  is_grad_enabled := grad;
  zero_grad _ s := s;
  module_call _ images s := (predict (steps s) images, s);
  criterion_call _ outputs labels s := ([length labels - agree outputs labels], s);
  backward _ s := s;
  optimizer_step _ s := State (dirs s) (S (steps s)) (grad s);
  scheduler_step _ _ s := s;
  item t := Qnat (hd 0 t);
  size0 t := length t;
  count_correct outputs labels := agree outputs labels;
  state_dict _ s := steps s
|}.

Definition world0 (d : gmap string (list string)) : world :=
  World (State d 0 true) [] [] ∅.

Definition resnet : module := Module_ ResNet18 None true (Sequential [Linear 512 3]).

(** One training batch (so one optimizer step per epoch) and two test
    batches, labelled so that the test accuracy is 1/6, 2/6, 3/6 after one,
    two, three steps and then repeats. *)
Definition train_batches : loader := [([0; 1; 2], [0; 1; 2])].
Definition test_batches : loader := [([0; 1; 2], [1; 0; 1]); ([3; 4; 5], [0; 1; 2])].

Definition run (num_epochs : Z) : result unit * world :=
  train_and_test_model resnet train_batches test_batches CrossEntropyLoss
                       (Adam resnet) None Cpu num_epochs (world0 ∅).

Definition frame_of (r : result frame) : frame :=
  match r with
  | Ok locals => locals
  | Raise _ => Frame 0%Q None
  end.

(** Test batches whose labels the network never predicts. *)
Definition hopeless_batches : loader := [([0; 1], [5; 5])].

(** A loader without batches. *)
Definition no_batches : loader := [].

(** A disk that holds the data set, and one that does not. *)
Definition disk_with_data : gmap string (list string) :=
  <["data" := ["train"; "test"]]>
    (<["data/train" := ["0"; "1"; "2"]]> (<["data/test" := ["0"; "1"; "2"]]> ∅)).

(** A disk whose data directory is there but holds no [train] folder. *)
Definition disk_without_folders : gmap string (list string) :=
  <["data" := ["notes.txt"]]> ∅.

Definition args (credentials model_name : string) : Namespace :=
  Args credentials "mainakml/vibeid-a-4-1" "data" 16 2 3 model_name 15.

End Toy.

(** The instance of [Toy] on a machine where every path exists and none can
    be listed. *)
Module ToyUnreadable.
Import Toy.

#[export] Instance unreadable : External := {|
  ext := state;
  os_path_exists _ _ := true;
  os_listdir _ _ := Raise (LibraryError "PermissionError");
  os_path_expanduser p _ := expanduser p;
  os_makedirs_exist_ok := makedirs;
  shutil_copy _ _ s := (None, s);
  os_chmod _ _ s := (None, s);
  subprocess_run_check := run_kaggle;
  tensor := list nat;
  dataset := list sample;
  loader := list (list nat * list nat);
  state_dict_t := nat;
  ImageFolder root _ s := image_folder root s;
  DataLoader ds bs _ _ := data_loader ds bs;
  loader_len l := length l;
  loader_iter l s := (l, s);
  nn_Linear_raises := linear_raises;
  cuda_is_available _ := false;
  module_to _ _ s := s;
  tensor_to t _ := t;
  module_train _ s := s;
  module_eval _ s := s;
  set_grad_enabled b s := State (dirs s) (steps s) b;
  is_grad_enabled := grad;
  zero_grad _ s := s;
  module_call _ images s := (predict (steps s) images, s);
  criterion_call _ outputs labels s := ([length labels - agree outputs labels], s);
  backward _ s := s;
  optimizer_step _ s := State (dirs s) (S (steps s)) (grad s);
  scheduler_step _ _ s := s;
  item t := Qnat (hd 0 t);
  size0 t := length t;
  count_correct outputs labels := agree outputs labels;
  state_dict _ s := steps s
|}.

Definition world0 : world := World (State ∅ 0 true) [] [] ∅.

End ToyUnreadable.

(** An interpreter in which the installed packages are a list of names, and
    pip installs what it is asked to unless the name is in [unavailable]. *)
Module ToyPython.

Record interpreter := Interpreter {
  installed : list string;
  unavailable : list string
}.

Definition has (name : string) (l : list string) : bool :=
  existsb (String.eqb name) l.

(** The package [broken] installs but never imports. *)
Definition toy_import (name : string) (i : interpreter) : result string * interpreter :=
  if String.eqb name "broken" then (Raise (LibraryError "ImportError"), i)
  else if has name (installed i) then (Ok name, i)
  else (Raise (LibraryError "ModuleNotFoundError"), i).

Definition toy_check_call (argv : list string) (i : interpreter) : option exn * interpreter :=
  let name := nth 4 argv "" in
  if has name (unavailable i) then (Some (LibraryError "CalledProcessError"), i)
  else (None, Interpreter (name :: installed i) (unavailable i)).

#[export] Instance toy_python : Python := {|
  env := interpreter;
  pymodule := string;
  builtin_import := toy_import;
  check_call := toy_check_call;
  sys_executable := "/usr/bin/python3"
|}.

Definition start (installed unavailable : list string) : pystate :=
  PyState (Interpreter installed unavailable) [] [] ∅.

End ToyPython.

(** * Properties *)

Section Properties.
Context `{External}.

(** ** The download step *)

Lemma download_present kp ds od w entries :
  os_path_exists od (w_ext w) = true ->
  os_listdir od (w_ext w) = Ok entries ->
  entries <> [] ->
  download_data_from_kaggle kp ds od w = (Ok tt, add_line (MsgDataExists od) w).
Proof.
  intros Hex Hls Hne.
  unfold download_data_from_kaggle, bind, ask, ask_result, ret, print.
  rewrite Hex, Hls.
  destruct entries as [|x xs]; [congruence | reflexivity].
Qed.

Lemma download_absent_no_credentials kp ds od w :
  os_path_exists od (w_ext w) = false \/ os_listdir od (w_ext w) = Ok [] ->
  falsy kp = true ->
  download_data_from_kaggle kp ds od w =
    (Raise (ValueError "The path to kaggle.json must be provided."),
     add_line (MsgDownloading ds od) w).
Proof.
  intros Habs Hkp.
  unfold download_data_from_kaggle, bind, ask, ask_result, ret, print, raise.
  destruct (os_path_exists od (w_ext w)) eqn:Hex.
  - destruct Habs as [Hf | Hl]; [discriminate |].
    rewrite Hl. cbn. now rewrite Hkp.
  - cbn. now rewrite Hkp.
Qed.

(** ** Loops *)

Lemma for_in_app {A S} (xs ys : list A) (body : A -> S -> M S) (s : S) (w : world) :
  for_in (xs ++ ys) body s w =
  match for_in xs body s w with
  | (Ok s', w') => for_in ys body s' w'
  | (Raise e, w') => (Raise e, w')
  end.
Proof.
  revert s w. induction xs as [|x xs IH]; intros s w; cbn.
  - reflexivity.
  - unfold bind. destruct (body x s w) as [[s1|e] w1]; [apply IH | reflexivity].
Qed.

Lemma range_S (k : nat) :
  range (Z.of_nat (S k)) = (range (Z.of_nat k) ++ [Z.of_nat k])%list.
Proof.
  unfold range. rewrite !Nat2Z.id, seq_S, map_app. reflexivity.
Qed.

Lemma Qnat_eq_bool_0 (n : nat) : Qeq_bool (Qnat n) 0 = true <-> n = 0.
Proof.
  unfold Qnat. rewrite Qeq_bool_iff. unfold Qeq; cbn. lia.
Qed.

Lemma truediv_ok (x : Q) (n : nat) (w : world) :
  0 < n -> truediv x (Qnat n) w = (Ok (x / Qnat n)%Q, w).
Proof.
  intros Hn. unfold truediv.
  destruct (Qeq_bool (Qnat n) 0) eqn:E; [|reflexivity].
  apply Qnat_eq_bool_0 in E. lia.
Qed.

Lemma truediv_zero (x : Q) (w : world) :
  truediv x (Qnat 0) w = (Raise ZeroDivisionError, w).
Proof. reflexivity. Qed.

Section Loop.
Variables (model : module) (train_loader test_loader : loader)
          (criterion : criterion) (optimizer : optimizer)
          (scheduler : option scheduler) (device : device) (num_epochs : Z).

#[local] Abbreviation train_step_of := (train_step model criterion optimizer device).
#[local] Abbreviation eval_step_of := (eval_step model criterion device).

Lemma samples_cons (b : tensor * tensor) (bs : list (tensor * tensor)) :
  samples device (b :: bs) = size0 (tensor_to (snd b) device) + samples device bs.
Proof. reflexivity. Qed.

(** The training pass never raises, prints nothing, writes no file, takes one
    training step per batch and counts the samples. *)
Lemma train_pass (batches : list (tensor * tensor)) :
  forall (running_loss : Q) (correct total : nat) (w : world),
  exists running_loss' correct' w' steps,
    for_in batches (train_batch model criterion optimizer device)
           (running_loss, correct, total) w
      = (Ok (running_loss', correct', total + samples device batches), w')
    /\ w_stdout w' = w_stdout w
    /\ w_files w' = w_files w
    /\ w_calls w' = (w_calls w ++ concat steps)%list
    /\ Forall2 train_step_of batches steps.
Proof.
  induction batches as [|[images labels] bs IH]; intros rl c t w.
  - exists rl, c, w, []. cbn. rewrite Nat.add_0_r, app_nil_r.
    repeat split; constructor.
  - rewrite samples_cons. cbn [for_in snd]. unfold bind at 1.
    unfold train_batch at 1.
    unfold bind, eff, eff_val, ret. cbn.
    destruct (module_call model (tensor_to images device) _) as [outputs e1] eqn:E1.
    cbn.
    destruct (criterion_call criterion outputs (tensor_to labels device) e1)
      as [loss e2] eqn:E2.
    cbn.
    match goal with
    | |- context [for_in bs _ (?rl1, ?c1, ?t1) ?w1] =>
        destruct (IH rl1 c1 t1 w1) as (rl' & c' & w' & steps & Hrun & Hout & Hfiles & Hcalls & Hsteps)
    end.
    exists rl', c', w'.
    exists ([ZeroGrad optimizer;
             Forward model (tensor_to images device);
             LossOf criterion outputs (tensor_to labels device);
             Backward loss;
             OptimizerStep optimizer] :: steps).
    rewrite Hrun. cbn in Hout, Hfiles, Hcalls.
    repeat split.
    + rewrite Nat.add_assoc. reflexivity.
    + exact Hout.
    + exact Hfiles.
    + rewrite Hcalls. rewrite <- !app_assoc. reflexivity.
    + constructor; [|exact Hsteps]. exists outputs, loss. reflexivity.
Qed.

(** The test pass never raises, prints nothing, writes no file, takes one
    evaluation step per batch and counts the samples. *)
Lemma test_pass (batches : list (tensor * tensor)) :
  forall (test_correct test_total : nat) (test_loss : Q) (w : world),
  exists test_correct' test_loss' w' steps,
    for_in batches (test_batch model criterion device)
           (test_correct, test_total, test_loss) w
      = (Ok (test_correct', test_total + samples device batches, test_loss'), w')
    /\ w_stdout w' = w_stdout w
    /\ w_files w' = w_files w
    /\ w_calls w' = (w_calls w ++ concat steps)%list
    /\ Forall2 eval_step_of batches steps.
Proof.
  induction batches as [|[images labels] bs IH]; intros c t tl w.
  - exists c, tl, w, []. cbn. rewrite Nat.add_0_r, app_nil_r.
    repeat split; constructor.
  - rewrite samples_cons. cbn [for_in snd]. unfold bind at 1.
    unfold test_batch at 1.
    unfold bind, eff, eff_val, ret. cbn.
    destruct (module_call model (tensor_to images device) _) as [outputs e1] eqn:E1.
    cbn.
    destruct (criterion_call criterion outputs (tensor_to labels device) e1)
      as [loss e2] eqn:E2.
    cbn.
    match goal with
    | |- context [for_in bs _ (?c1, ?t1, ?tl1) ?w1] =>
        destruct (IH c1 t1 tl1 w1) as (c' & tl' & w' & steps & Hrun & Hout & Hfiles & Hcalls & Hsteps)
    end.
    exists c', tl', w'.
    exists ([Forward model (tensor_to images device);
             LossOf criterion outputs (tensor_to labels device)] :: steps).
    rewrite Hrun. cbn in Hout, Hfiles, Hcalls.
    repeat split.
    + rewrite Nat.add_assoc. reflexivity.
    + exact Hout.
    + exact Hfiles.
    + rewrite Hcalls. rewrite <- !app_assoc. reflexivity.
    + constructor; [|exact Hsteps]. exists outputs. reflexivity.
Qed.

#[local] Abbreviation quiet :=
  (quiet_call model train_loader test_loader criterion optimizer scheduler).
#[local] Abbreviation allowed :=
  (training_call model train_loader test_loader criterion optimizer scheduler).

Ltac quiet_one :=
  split; [cbn; first [reflexivity | exact I | now left | now right] | discriminate].

Lemma train_steps_quiet bs steps :
  Forall2 train_step_of bs steps -> Forall quiet (concat steps).
Proof.
  induction 1 as [|b cs bs steps (outputs & loss & ->) _ IH]; cbn.
  - constructor.
  - repeat (apply List.Forall_cons; [quiet_one|]). exact IH.
Qed.

Lemma eval_steps_quiet bs steps :
  Forall2 eval_step_of bs steps -> Forall quiet (concat steps).
Proof.
  induction 1 as [|b cs bs steps (outputs & ->) _ IH]; cbn.
  - constructor.
  - repeat (apply List.Forall_cons; [quiet_one|]). exact IH.
Qed.

Ltac no_save :=
  repeat first
    [ apply List.Forall_nil
    | apply List.Forall_cons; [quiet_one|]
    | solve [eapply train_steps_quiet; eassumption]
    | solve [eapply eval_steps_quiet; eassumption]
    | apply Forall_app; split ].

#[local] Arguments truediv : simpl never.

(** One epoch either completes as [epoch_done] describes or raises
    [ZeroDivisionError] as [epoch_raised] describes. *)
Lemma epoch_body_spec (e : Z) (locals : frame) (w : world) :
  match epoch_body model train_loader test_loader criterion optimizer scheduler
                   device num_epochs e locals w with
  | (Ok locals', w') =>
      epoch_done model train_loader test_loader criterion optimizer scheduler
                 device num_epochs e locals w locals' w'
  | (Raise ex, w') =>
      ex = ZeroDivisionError
      /\ epoch_raised model train_loader test_loader criterion optimizer scheduler
                      device w w'
  end.
Proof.
  unfold epoch_body.
  unfold bind at 1. unfold eff at 1. cbn.
  unfold bind at 1. unfold eff_val at 1. cbn.
  destruct (loader_iter train_loader (module_train model (w_ext w))) as [trb x1'] eqn:Etr.
  unfold bind at 1.
  match goal with
  | |- context [for_in trb _ (?a, ?b, ?c) ?w1] =>
      destruct (train_pass trb a b c w1)
        as (rl & correct & w2 & tsteps & Hrun & Hout2 & Hfiles2 & Hcalls2 & Hsteps2)
  end.
  rewrite Hrun. cbn [Nat.add]. cbn in Hout2, Hfiles2, Hcalls2.
  assert (Htrb : trb = fst (loader_iter train_loader (module_train model (w_ext w))))
    by now rewrite Etr.
  (* epoch_loss = running_loss / len(train_loader) *)
  unfold bind at 1.
  destruct (Nat.eq_dec (loader_len train_loader) 0) as [Hlen1|Hlen1].
  { rewrite Hlen1, truediv_zero. split; [reflexivity|].
    repeat split; try assumption; [|now left].
    eexists. split; [rewrite Hcalls2, <- !app_assoc; reflexivity|].
    no_save. }
  rewrite truediv_ok by lia.
  (* epoch_acc = correct / total *)
  unfold bind at 1.
  destruct (Nat.eq_dec (samples device trb) 0) as [Hs1|Hs1].
  { rewrite Hs1, truediv_zero. split; [reflexivity|].
    repeat split; try assumption.
    - eexists. split; [rewrite Hcalls2, <- !app_assoc; reflexivity|].
      no_save.
    - right; right; left. eexists. rewrite <- Htrb. exact Hs1. }
  rewrite truediv_ok by lia.
  unfold bind at 1. unfold eff at 1. cbn.
  unfold bind at 1. unfold with_no_grad at 1. unfold bind at 1. unfold eff_val at 1. cbn.
  destruct (loader_iter test_loader _) as [teb x2'] eqn:Ete.
  match goal with
  | |- context [for_in teb _ (?a, ?b, ?c) ?w1] =>
      destruct (test_pass teb a b c w1)
        as (tcorrect & tloss & w3 & esteps & Hrun3 & Hout3 & Hfiles3 & Hcalls3 & Hsteps3)
  end.
  rewrite Hrun3. cbn [Nat.add]. cbn in Hout3, Hfiles3, Hcalls3.
  match type of Ete with
  | loader_iter _ ?x = _ =>
      assert (Hteb : teb = fst (loader_iter test_loader x)) by now rewrite Ete
  end.
  (* test_loss /= len(test_loader) *)
  unfold bind at 1.
  destruct (Nat.eq_dec (loader_len test_loader) 0) as [Hlen2|Hlen2].
  { rewrite Hlen2, truediv_zero. split; [reflexivity|]. unfold epoch_raised. cbn.
    split; [congruence|]. split; [congruence|]. split; [|now right; left].
    eexists. split; [rewrite Hcalls3, Hcalls2, <- !app_assoc; reflexivity|].
    no_save. }
  rewrite truediv_ok by lia.
  (* test_accuracy = test_correct / test_total *)
  unfold bind at 1.
  destruct (Nat.eq_dec (samples device teb) 0) as [Hs2|Hs2].
  { rewrite Hs2, truediv_zero. split; [reflexivity|]. unfold epoch_raised. cbn.
    split; [congruence|]. split; [congruence|]. split.
    - eexists. split; [rewrite Hcalls3, Hcalls2, <- !app_assoc; reflexivity|].
      no_save.
    - right; right; right. eexists. rewrite <- Hteb. exact Hs2. }
  rewrite truediv_ok by lia.
  unfold bind at 1. unfold print at 1. cbn.
  unfold bind at 1.
  destruct scheduler as [s|]; unfold eff, ret; cbn;
    (destruct (Qgtb (Qnat tcorrect / Qnat (samples device teb)) (best_accuracy locals)) eqn:Hgt;
     unfold bind, ask, torch_save, print, ret; cbn;
     exists trb, teb, tsteps, esteps, (module_train model (w_ext w));
     eexists; exists (rl / Qnat (loader_len train_loader))%Q,
                     (Qnat correct / Qnat (samples device trb))%Q,
                     (tloss / Qnat (loader_len test_loader))%Q, tcorrect;
     cbn zeta; rewrite Hgt;
     (split; [exact Htrb|]); (split; [exact Hteb|]);
     (split; [lia|]); (split; [lia|]); (split; [lia|]); (split; [lia|]);
     (split; [exact Hsteps2|]); (split; [exact Hsteps3|]);
     (split; [reflexivity|]); cbn;
     (split; [reflexivity|]);
     (split; [rewrite Hcalls3, Hcalls2;
              repeat first [rewrite <- app_assoc | progress cbn [app]]; reflexivity|]);
     (split; [rewrite Hout3, Hout2;
              repeat first [rewrite <- app_assoc | progress cbn [app]]; reflexivity|]);
     rewrite Hfiles3, Hfiles2; reflexivity).
Qed.

(** *** Comparisons *)

Lemma Qgtb_true (a b : Q) : Qgtb a b = true <-> (b < a)%Q.
Proof.
  unfold Qgtb. rewrite negb_true_iff. split.
  - intros E. apply Qnot_le_lt. intros Hle. apply Qle_bool_iff in Hle. congruence.
  - intros Hlt. destruct (Qle_bool a b) eqn:E; [|reflexivity].
    apply Qle_bool_iff in E. now apply Qlt_not_le in Hlt.
Qed.

Lemma Qgtb_false (a b : Q) : Qgtb a b = false <-> (a <= b)%Q.
Proof.
  unfold Qgtb. rewrite negb_false_iff. apply Qle_bool_iff.
Qed.

Lemma Qnat_nonneg (n : nat) : (0 <= Qnat n)%Q.
Proof. unfold Qnat, Qle; cbn. lia. Qed.

Lemma accuracy_nonneg (c t : nat) : (0 <= Qnat c / Qnat t)%Q.
Proof.
  unfold Qdiv. apply Qmult_le_0_compat; [|apply Qinv_le_0_compat]; apply Qnat_nonneg.
Qed.

(** *** The epoch loop, one iteration at a time *)

#[local] Abbreviation body :=
  (epoch_body model train_loader test_loader criterion optimizer scheduler
              device num_epochs).
#[local] Abbreviation after :=
  (after_epochs model train_loader test_loader criterion optimizer scheduler
                device num_epochs).
#[local] Abbreviation accuracy :=
  (accuracy_of model train_loader test_loader criterion optimizer scheduler
               device num_epochs).
#[local] Abbreviation written :=
  (checkpoint_written model train_loader test_loader criterion optimizer scheduler
                      device num_epochs).
#[local] Abbreviation parameters :=
  (parameters_of model train_loader test_loader criterion optimizer scheduler
                 device num_epochs).
#[local] Abbreviation calls_in :=
  (calls_of model train_loader test_loader criterion optimizer scheduler
            device num_epochs).
#[local] Abbreviation lines_in :=
  (lines_of model train_loader test_loader criterion optimizer scheduler
            device num_epochs).

Lemma after_0 (w0 : world) :
  after 0 w0 = (Ok (Frame 0%Q None), add_line (MsgTraining num_epochs) w0).
Proof. reflexivity. Qed.

Lemma after_S (k : nat) (w0 : world) :
  after (S k) w0 =
  match after k w0 with
  | (Ok locals, w) => body (Z.of_nat k) locals w
  | (Raise ex, w) => (Raise ex, w)
  end.
Proof.
  unfold after_epochs, bind, print.
  rewrite range_S, for_in_app.
  destruct (for_in (range (Z.of_nat k)) _ _ _) as [[locals|ex] w]; [|reflexivity].
  cbn [for_in]. unfold bind, ret.
  now destruct (body (Z.of_nat k) locals w) as [[locals'|ex] w'].
Qed.

Lemma train_and_test_model_after (w0 : world) :
  train_and_test_model model train_loader test_loader criterion optimizer scheduler
                       device num_epochs w0 =
  match after (Z.to_nat num_epochs) w0 with
  | (Ok _, w) => (Ok tt, add_line MsgTrainingCompleted w)
  | (Raise ex, w) => (Raise ex, w)
  end.
Proof.
  unfold train_and_test_model, after_epochs, bind, print.
  replace (range (Z.of_nat (Z.to_nat num_epochs))) with (range num_epochs)
    by (unfold range; now rewrite Nat2Z.id).
  now destruct (for_in (range num_epochs) _ _ _) as [[locals|ex] w].
Qed.

(** A completed prefix of the loop has completed prefixes. *)
Lemma after_prefix (k j : nat) (w0 : world) locals w :
  after k w0 = (Ok locals, w) -> j <= k ->
  exists locals' w', after j w0 = (Ok locals', w').
Proof.
  revert locals w. induction k as [|k IH]; intros locals w Hk Hj.
  - replace j with 0 by lia. eauto.
  - destruct (Nat.eq_dec j (S k)) as [->|Hne]; [eauto|].
    rewrite after_S in Hk.
    destruct (after k w0) as [[locals1|ex] w1] eqn:E; [|discriminate].
    eapply IH; [reflexivity | lia].
Qed.

(** Between two completed prefixes lies a completed epoch. *)
Lemma after_step (k : nat) (w0 : world) locals' w' :
  after (S k) w0 = (Ok locals', w') ->
  exists locals w,
    after k w0 = (Ok locals, w)
    /\ epoch_done model train_loader test_loader criterion optimizer scheduler
                  device num_epochs (Z.of_nat k) locals w locals' w'.
Proof.
  rewrite after_S.
  destruct (after k w0) as [[locals|ex] w] eqn:E; [|discriminate].
  intros Hb. exists locals, w. split; [reflexivity|].
  pose proof (epoch_body_spec (Z.of_nat k) locals w) as Hspec.
  now rewrite Hb in Hspec.
Qed.

#[local] Abbreviation shape :=
  (epoch_shape model train_loader test_loader criterion optimizer scheduler device).

Lemma quiet_not_save cs :
  Forall quiet cs -> forall sd p, ~ In (TorchSave sd p) cs.
Proof.
  intros Hq sd p Hin. rewrite List.Forall_forall in Hq.
  destruct (Hq _ Hin) as [_ Hne]. now apply (Hne sd p).
Qed.

Lemma quiet_allowed cs : Forall quiet cs -> Forall allowed cs.
Proof. apply List.Forall_impl. now intros c [Ha _]. Qed.

(** What a completed epoch means for the frame, the calls, the output and the
    checkpoint file. *)
Lemma epoch_done_facts (k : nat) locals w locals' w' :
  epoch_done model train_loader test_loader criterion optimizer scheduler
             device num_epochs (Z.of_nat k) locals w locals' w' ->
  exists acc cs ls,
    test_accuracy locals' = Some acc
    /\ (0 <= acc)%Q
    /\ w_calls w' = (w_calls w ++ cs)%list
    /\ shape cs
    /\ Forall allowed cs
    /\ w_stdout w' = (w_stdout w ++ ls)%list
    /\ epoch_lines num_epochs k acc ls
    /\ ((best_accuracy locals < acc)%Q
         /\ best_accuracy locals' = acc
         /\ In (TorchSave (state_dict model (w_ext w')) "best_model.pth") cs
         /\ w_files w' = <["best_model.pth" := state_dict model (w_ext w')]> (w_files w)
        \/
        (acc <= best_accuracy locals)%Q
         /\ best_accuracy locals' = best_accuracy locals
         /\ (forall sd p, ~ In (TorchSave sd p) cs)
         /\ w_files w' = w_files w).
Proof.
  intros (trb & teb & tsteps & esteps & x1 & x2 & tl & ta & sl & tc & Hdone).
  cbn zeta in Hdone.
  destruct Hdone as (Htrb & Hteb & Hl1 & Hs1 & Hl2 & Hs2 & Hst & Hse & Hacc & Hcase).
  set (acc := (Qnat tc / Qnat (samples device teb))%Q) in *.
  set (sched := match scheduler with Some s => [SchedulerStep s sl] | None => [] end) in *.
  assert (Hsched : Forall quiet sched).
  { subst sched. destruct scheduler as [s|]; no_save. }
  assert (Hquiet : Forall quiet
            ([ModuleTrain model; LoaderIter train_loader trb] ++ concat tsteps
             ++ [ModuleEval model; NoGradEnter; LoaderIter test_loader teb]
             ++ concat esteps ++ [NoGradExit] ++ sched)%list).
  { no_save. exact Hsched. }
  destruct (Qgtb acc (best_accuracy locals)) eqn:Hgt.
  - destruct Hcase as (Hbest & Hcalls & Hout & Hfiles).
    exists acc. eexists. eexists.
    split; [exact Hacc|]. split; [apply accuracy_nonneg|].
    split; [exact Hcalls|].
    split.
    { exists trb, tsteps, teb, esteps,
        (sched ++ [TorchSave (state_dict model (w_ext w')) "best_model.pth"])%list.
      split; [now rewrite <- !app_assoc|].
      split; [exact Hst|]. split; [exact Hse|].
      apply Forall_app; split; [|now repeat constructor].
      subst sched. destruct scheduler as [s|]; now repeat constructor. }
    split.
    { apply Forall_app; split; [now apply quiet_allowed|]. now repeat constructor. }
    split; [exact Hout|].
    split; [exists tl, ta, sl; now right|].
    left. split; [now apply Qgtb_true|]. split; [exact Hbest|].
    split; [|exact Hfiles].
    apply in_or_app. right. now left.
  - destruct Hcase as (Hbest & Hcalls & Hout & Hfiles).
    exists acc. eexists. eexists.
    split; [exact Hacc|]. split; [apply accuracy_nonneg|].
    split; [exact Hcalls|].
    split.
    { exists trb, tsteps, teb, esteps, sched.
      split; [reflexivity|].
      split; [exact Hst|]. split; [exact Hse|].
      subst sched. destruct scheduler as [s|]; now repeat constructor. }
    split; [now apply quiet_allowed|].
    split; [exact Hout|].
    split; [exists tl, ta, sl; now left|].
    right. split; [now apply Qgtb_false|]. split; [exact Hbest|].
    split; [|exact Hfiles].
    now apply quiet_not_save.
Qed.

Lemma new_calls_app (w w' : world) cs :
  w_calls w' = (w_calls w ++ cs)%list -> new_calls w w' = cs.
Proof. intros E. unfold new_calls. rewrite E. apply drop_app_length. Qed.

Lemma new_lines_app (w w' : world) ls :
  w_stdout w' = (w_stdout w ++ ls)%list -> new_lines w w' = ls.
Proof. intros E. unfold new_lines. rewrite E. apply drop_app_length. Qed.

(** Epoch [k] of a run whose first [k + 1] epochs complete. *)
Lemma epoch_summary (k : nat) (w0 : world) locals' w' :
  after (S k) w0 = (Ok locals', w') ->
  exists locals w acc,
    after k w0 = (Ok locals, w)
    /\ accuracy w0 k = Some acc
    /\ (0 <= acc)%Q
    /\ w_calls w' = (w_calls w ++ calls_in w0 k)%list
    /\ shape (calls_in w0 k)
    /\ Forall allowed (calls_in w0 k)
    /\ w_stdout w' = (w_stdout w ++ lines_in w0 k)%list
    /\ epoch_lines num_epochs k acc (lines_in w0 k)
    /\ ((best_accuracy locals < acc)%Q
         /\ best_accuracy locals' = acc
         /\ written w0 k
         /\ w_files w' = <["best_model.pth" := parameters w0 k]> (w_files w)
        \/
        (acc <= best_accuracy locals)%Q
         /\ best_accuracy locals' = best_accuracy locals
         /\ ~ written w0 k
         /\ w_files w' = w_files w).
Proof.
  intros HS.
  destruct (after_step k w0 locals' w' HS) as (locals & w & Hk & Hdone).
  destruct (epoch_done_facts k locals w locals' w' Hdone)
    as (acc & cs & ls & Hacc & Hnn & Hcalls & Hshape & Hall & Hout & Hlines & Hcase).
  assert (Hcs : calls_in w0 k = cs).
  { unfold calls_of. rewrite HS, Hk. cbn [snd]. now apply new_calls_app. }
  assert (Hls : lines_in w0 k = ls).
  { unfold lines_of. rewrite HS, Hk. cbn [snd]. now apply new_lines_app. }
  assert (Hpar : parameters w0 k = state_dict model (w_ext w')).
  { unfold parameters_of. now rewrite HS. }
  exists locals, w, acc.
  split; [exact Hk|].
  split; [unfold accuracy_of; now rewrite HS|].
  split; [exact Hnn|].
  rewrite Hcs, Hls, Hpar.
  do 5 (split; [assumption|]).
  destruct Hcase as [(Hlt & Hb & Hin & Hf) | (Hle & Hb & Hno & Hf)].
  - left. repeat split; try assumption.
    unfold checkpoint_written. rewrite Hcs. eauto.
  - right. repeat split; try assumption.
    unfold checkpoint_written. rewrite Hcs. intros [sd Hin]. exact (Hno _ _ Hin).
Qed.

(** The calls of a completed prefix extend the calls made before it. *)
Lemma after_calls_prefix (k : nat) (w0 : world) locals w :
  after k w0 = (Ok locals, w) ->
  exists cs, w_calls w = (w_calls w0 ++ cs)%list.
Proof.
  revert locals w. induction k as [|k IH]; intros locals' w' Hk.
  - rewrite after_0 in Hk. injection Hk as <- <-. exists []. cbn. now rewrite app_nil_r.
  - destruct (epoch_summary k w0 locals' w' Hk)
      as (locals & w & acc & Hprev & _ & _ & Hcalls & _).
    destruct (IH locals w Hprev) as (cs & Hcs).
    exists (cs ++ calls_in w0 k)%list. now rewrite Hcalls, Hcs, app_assoc.
Qed.

(** A save among the calls of an epoch is a save to [best_model.pth]. *)
Lemma calls_of_save_path (k : nat) (w0 : world) locals' w' :
  after (S k) w0 = (Ok locals', w') ->
  forall sd p, In (TorchSave sd p) (calls_in w0 k) -> p = "best_model.pth".
Proof.
  intros Hk sd p Hin.
  destruct (epoch_summary k w0 locals' w' Hk)
    as (locals & w & acc & _ & _ & _ & _ & _ & Hall & _).
  rewrite List.Forall_forall in Hall. exact (Hall _ Hin).
Qed.

(** The loop invariant: [best_accuracy] is the largest test accuracy so far
    (0.0 included), and the checkpoint file, once written, holds the
    parameters of the epoch that reached it. *)
Lemma best_invariant (k : nat) (w0 : world) locals w :
  after k w0 = (Ok locals, w) ->
  (0 <= best_accuracy locals)%Q
  /\ (forall j b, j < k -> accuracy w0 j = Some b -> (b <= best_accuracy locals)%Q)
  /\ ((best_accuracy locals = 0%Q
        /\ w_files w = w_files w0
        /\ (forall j, j < k -> ~ written w0 j)
        /\ forall sd p, ~ In (TorchSave sd p) (new_calls w0 w))
      \/
      (exists j, j < k
        /\ accuracy w0 j = Some (best_accuracy locals)
        /\ written w0 j
        /\ w_files w = <["best_model.pth" := parameters w0 j]> (w_files w0)
        /\ (0 < best_accuracy locals)%Q)).
Proof.
  revert locals w. induction k as [|k IH]; intros locals' w' Hk.
  - rewrite after_0 in Hk. injection Hk as <- <-. cbn.
    split; [apply Qle_refl|]. split; [intros; lia|].
    left. repeat split; [intros; lia|].
    unfold new_calls. cbn. rewrite drop_all. now intros sd p [].
  - destruct (epoch_summary k w0 locals' w' Hk)
      as (locals & w & acc & Hprev & Hacc & Hnn & Hcalls & _ & _ & _ & _ & Hcase).
    destruct (IH locals w Hprev) as (Hb0 & Hmax & Hfile).
    destruct Hcase as [(Hlt & Hb & Hw & Hf) | (Hle & Hb & Hnw & Hf)].
    + rewrite Hb. split; [exact Hnn|]. split.
      * intros j b Hj Hjb.
        destruct (Nat.eq_dec j k) as [->|Hne].
        -- rewrite Hacc in Hjb. injection Hjb as <-. apply Qle_refl.
        -- apply Qlt_le_weak. eapply Qle_lt_trans; [|exact Hlt].
           apply (Hmax j); [lia | exact Hjb].
      * right. exists k. split; [lia|]. split; [exact Hacc|]. split; [exact Hw|].
        split; [|eapply Qle_lt_trans; [exact Hb0 | exact Hlt]].
        rewrite Hf.
        destruct Hfile as [(_ & Hsame & _) | (j & _ & _ & _ & Hins & _)].
        -- now rewrite Hsame.
        -- rewrite Hins. apply insert_insert_eq.
    + rewrite Hb. split; [exact Hb0|]. split.
      * intros j b Hj Hjb.
        destruct (Nat.eq_dec j k) as [->|Hne].
        -- rewrite Hacc in Hjb. injection Hjb as <-. exact Hle.
        -- apply (Hmax j); [lia | exact Hjb].
      * rewrite Hf.
        destruct Hfile as [(Hzero & Hsame & Hnone & Hquiet) | (j & Hj & Haj & Hwj & Hins & Hpos)].
        -- left. split; [exact Hzero|]. split; [exact Hsame|]. split.
           ++ intros j Hj. destruct (Nat.eq_dec j k) as [->|Hne]; [exact Hnw|].
              apply Hnone. lia.
           ++ intros sd p Hin.
              destruct (after_calls_prefix k w0 locals w Hprev) as (cs & Hcs).
              unfold new_calls in Hin, Hquiet.
              rewrite Hcalls, Hcs, <- app_assoc, drop_app_length in Hin.
              rewrite Hcs, drop_app_length in Hquiet.
              apply in_app_or in Hin. destruct Hin as [Hin|Hin].
              ** exact (Hquiet _ _ Hin).
              ** apply Hnw. exists sd.
                 destruct (calls_of_save_path k w0 locals' w' Hk sd p Hin). exact Hin.
        -- right. exists j. split; [lia|]. now repeat split.
Qed.

(** Every epoch of a completed prefix has a test accuracy, and it is not
    negative. *)
Lemma accuracy_defined (k e : nat) (w0 : world) locals w :
  after k w0 = (Ok locals, w) -> e < k ->
  exists a, accuracy w0 e = Some a /\ (0 <= a)%Q.
Proof.
  intros Hk He.
  destruct (after_prefix k (S e) w0 locals w Hk ltac:(lia)) as (l1 & w1 & H1).
  destruct (epoch_summary e w0 l1 w1 H1) as (_ & _ & a & _ & Ha & Hnn & _).
  eauto.
Qed.

(** A prefix of the loop either completes, or an earlier epoch raised
    [ZeroDivisionError] and nothing ran after it. *)
Lemma after_cases (k : nat) (w0 : world) :
  (exists locals w, after k w0 = (Ok locals, w))
  \/ (exists j locals wj w',
        j < k
        /\ after j w0 = (Ok locals, wj)
        /\ after k w0 = (Raise ZeroDivisionError, w')
        /\ epoch_raised model train_loader test_loader criterion optimizer scheduler
                        device wj w').
Proof.
  induction k as [|k IH].
  - left. rewrite after_0. eauto.
  - rewrite after_S.
    destruct IH as [(locals & w & Hk) | (j & locals & wj & w' & Hj & Hpre & Hk & Hr)].
    + rewrite Hk.
      pose proof (epoch_body_spec (Z.of_nat k) locals w) as Hspec.
      destruct (body (Z.of_nat k) locals w) as [[locals'|ex] w'].
      * left. eauto.
      * destruct Hspec as [-> Hr]. right. exists k, locals, w, w'. auto.
    + rewrite Hk. right. exists j, locals, wj, w'. auto.
Qed.


(** Whatever happens, the loop only makes calls on the objects it was given,
    and touches no file but [best_model.pth]. *)
Lemma after_ok_frame (k : nat) (w0 : world) locals w :
  after k w0 = (Ok locals, w) ->
  (exists cs, w_calls w = (w_calls w0 ++ cs)%list /\ Forall allowed cs)
  /\ (forall p, p <> "best_model.pth" -> w_files w !! p = w_files w0 !! p).
Proof.
  revert locals w. induction k as [|k IH]; intros locals' w' Hk.
  - rewrite after_0 in Hk. injection Hk as <- <-. cbn. split; [|reflexivity].
    exists []. split; [now rewrite app_nil_r | constructor].
  - destruct (epoch_summary k w0 locals' w' Hk)
      as (locals & w & acc & Hprev & _ & _ & Hcalls & _ & Hall & _ & _ & Hcase).
    destruct (IH locals w Hprev) as ((cs & Hcs & Hcsall) & Hfiles).
    split.
    + exists (cs ++ calls_in w0 k)%list. split.
      * now rewrite Hcalls, Hcs, app_assoc.
      * apply Forall_app. now split.
    + intros p Hp.
      destruct Hcase as [(_ & _ & _ & Hf) | (_ & _ & _ & Hf)]; rewrite Hf.
      * rewrite lookup_insert_ne by congruence. now apply Hfiles.
      * now apply Hfiles.
Qed.

Lemma after_frame (k : nat) (w0 : world) :
  (exists cs, w_calls (snd (after k w0)) = (w_calls w0 ++ cs)%list /\ Forall allowed cs)
  /\ (forall p, p <> "best_model.pth" ->
        w_files (snd (after k w0)) !! p = w_files w0 !! p).
Proof.
  destruct (after_cases k w0)
    as [(locals & w & Hk) | (j & locals & wj & w' & Hj & Hpre & Hk & Hr)].
  - rewrite Hk. cbn [snd]. now apply (after_ok_frame k w0 locals).
  - rewrite Hk. cbn [snd].
    destruct (after_ok_frame j w0 locals wj Hpre) as ((cs & Hcs & Hcsall) & Hfiles).
    destruct Hr as (_ & Hf & (cs' & Hcs' & Hquiet) & _).
    split.
    + exists (cs ++ cs')%list. split.
      * now rewrite Hcs', Hcs, app_assoc.
      * apply Forall_app. split; [exact Hcsall | now apply quiet_allowed].
    + intros p Hp. rewrite Hf. now apply Hfiles.
Qed.

(** The calls and the output of a completed prefix, epoch by epoch. *)
Lemma after_segments (k : nat) (w0 : world) locals w :
  after k w0 = (Ok locals, w) ->
  w_calls w = (w_calls w0 ++ concat (map (calls_in w0) (seq 0 k)))%list
  /\ w_stdout w = (w_stdout w0 ++ [MsgTraining num_epochs]
                    ++ concat (map (lines_in w0) (seq 0 k)))%list.
Proof.
  revert locals w. induction k as [|k IH]; intros locals' w' Hk.
  - rewrite after_0 in Hk. injection Hk as <- <-. cbn. now rewrite !app_nil_r.
  - destruct (epoch_summary k w0 locals' w' Hk)
      as (locals & w & acc & Hprev & _ & _ & Hcalls & _ & _ & Hout & _).
    destruct (IH locals w Hprev) as (Hc & Ho).
    rewrite seq_S, !map_app, !concat_app. cbn [map concat Nat.add]. rewrite !app_nil_r.
    split.
    + now rewrite Hcalls, Hc, <- app_assoc.
    + rewrite Hout, Ho. now rewrite <- !app_assoc.
Qed.


#[local] Abbreviation run :=
  (train_and_test_model model train_loader test_loader criterion optimizer scheduler
                        device num_epochs).

Lemma run_after (w0 : world) :
  (exists locals w,
      after (Z.to_nat num_epochs) w0 = (Ok locals, w)
      /\ run w0 = (Ok tt, add_line MsgTrainingCompleted w))
  \/ (exists ex w,
        after (Z.to_nat num_epochs) w0 = (Raise ex, w)
        /\ run w0 = (Raise ex, w)).
Proof.
  rewrite train_and_test_model_after.
  destruct (after (Z.to_nat num_epochs) w0) as [[locals|ex] w]; [left | right]; eauto.
Qed.

Lemma run_world (w0 : world) :
  w_calls (snd (run w0)) = w_calls (snd (after (Z.to_nat num_epochs) w0))
  /\ w_files (snd (run w0)) = w_files (snd (after (Z.to_nat num_epochs) w0)).
Proof.
  destruct (run_after w0) as [(locals & w & -> & ->) | (ex & w & -> & ->)]; now cbn.
Qed.



Lemma run_calls_allowed (w0 : world) :
  exists cs, w_calls (snd (run w0)) = (w_calls w0 ++ cs)%list /\ Forall allowed cs.
Proof.
  destruct (run_world w0) as (-> & _).
  now destruct (after_frame (Z.to_nat num_epochs) w0) as (Hcalls & _).
Qed.

(** *** The epoch against its second account *)

#[local] Abbreviation training_step_of := (training_step model criterion optimizer device).
#[local] Abbreviation evaluation_step_of := (evaluation_step model criterion device).
#[local] Abbreviation train_batches_at := (train_pass_batches model train_loader).
#[local] Abbreviation train_steps_at :=
  (train_pass_steps model train_loader criterion optimizer device).
#[local] Abbreviation train_end_at :=
  (train_pass_end model train_loader criterion optimizer device).
#[local] Abbreviation test_start_at :=
  (test_pass_start model train_loader criterion optimizer device).
#[local] Abbreviation test_batches_at :=
  (test_pass_batches model train_loader test_loader criterion optimizer device).
#[local] Abbreviation test_steps_at :=
  (test_pass_steps model train_loader test_loader criterion optimizer device).
#[local] Abbreviation test_end_at :=
  (test_pass_end model train_loader test_loader criterion optimizer device).
#[local] Abbreviation train_loss_at :=
  (epoch_train_loss model train_loader criterion optimizer device).
#[local] Abbreviation train_accuracy_at :=
  (epoch_train_accuracy model train_loader criterion optimizer device).
#[local] Abbreviation test_loss_at :=
  (epoch_test_loss model train_loader test_loader criterion optimizer device).
#[local] Abbreviation test_accuracy_at :=
  (epoch_test_accuracy model train_loader test_loader criterion optimizer device).
#[local] Abbreviation metrics_at :=
  (epoch_metrics model train_loader test_loader criterion optimizer device num_epochs).
#[local] Abbreviation scheduler_calls_at :=
  (epoch_scheduler_calls model train_loader test_loader criterion optimizer scheduler device).
#[local] Abbreviation end_at :=
  (epoch_end model train_loader test_loader criterion optimizer scheduler device).
#[local] Abbreviation calls_at :=
  (epoch_calls model train_loader test_loader criterion optimizer scheduler device).
#[local] Abbreviation divisors_positive_at :=
  (epoch_divisors_positive model train_loader test_loader criterion optimizer device).

Lemma world_eta (w : world) :
  w = World (w_ext w) (w_stdout w) (w_calls w) (w_files w).
Proof. now destruct w. Qed.

(** The training pass is the pass of training steps, whatever the sums it
    starts from. *)
Lemma train_pass_exact (batches : list (tensor * tensor)) :
  forall (running_loss : Q) (correct total : nat) (w : world),
    for_in batches (train_batch model criterion optimizer device)
           (running_loss, correct, total) w
    = (Ok (fold_left (fun a s => (a + step_loss s)%Q)
                     (pass training_step_of (w_ext w) batches) running_loss,
           fold_left (fun a s => a + step_correct s)
                     (pass training_step_of (w_ext w) batches) correct,
           fold_left (fun a s => a + step_size s)
                     (pass training_step_of (w_ext w) batches) total),
       World (pass_end (w_ext w) (pass training_step_of (w_ext w) batches))
             (w_stdout w)
             (w_calls w ++ concat (map step_calls (pass training_step_of (w_ext w) batches)))
             (w_files w)).
Proof.
  induction batches as [|[images labels] bs IH]; intros rl c t w.
  - cbn. unfold ret. rewrite app_nil_r. now rewrite <- world_eta.
  - cbn [for_in pass]. unfold bind at 1. unfold train_batch at 1.
    unfold bind, eff, eff_val, ret.
    cbn [w_ext w_stdout w_calls w_files set_ext add_call fst snd].
    destruct (module_call model (tensor_to images device) (zero_grad optimizer (w_ext w)))
      as [outputs e1] eqn:E1.
    cbn [w_ext w_stdout w_calls w_files set_ext add_call fst snd].
    destruct (criterion_call criterion outputs (tensor_to labels device) e1)
      as [loss e2] eqn:E2.
    cbn [w_ext w_stdout w_calls w_files set_ext add_call fst snd].
    rewrite IH.
    cbn [w_ext w_stdout w_calls w_files set_ext add_call fst snd].
    assert (Hst : training_step_of (w_ext w) (images, labels)
                  = BatchStep [ZeroGrad optimizer;
                               Forward model (tensor_to images device);
                               LossOf criterion outputs (tensor_to labels device);
                               Backward loss;
                               OptimizerStep optimizer]
                              (item loss)
                              (count_correct outputs (tensor_to labels device))
                              (size0 (tensor_to labels device))
                              (optimizer_step optimizer (backward loss e2))).
    { unfold training_step. cbn [fst snd]. rewrite E1. cbn [fst snd]. now rewrite E2. }
    rewrite Hst.
    cbn [step_ext step_loss step_correct step_size step_calls map concat fold_left].
    unfold pass_end. cbn [fold_left step_ext].
    rewrite <- !app_assoc. reflexivity.
Qed.

(** The test pass is the pass of evaluation steps. *)
Lemma test_pass_exact (batches : list (tensor * tensor)) :
  forall (test_correct test_total : nat) (test_loss : Q) (w : world),
    for_in batches (test_batch model criterion device)
           (test_correct, test_total, test_loss) w
    = (Ok (fold_left (fun a s => a + step_correct s)
                     (pass evaluation_step_of (w_ext w) batches) test_correct,
           fold_left (fun a s => a + step_size s)
                     (pass evaluation_step_of (w_ext w) batches) test_total,
           fold_left (fun a s => (a + step_loss s)%Q)
                     (pass evaluation_step_of (w_ext w) batches) test_loss),
       World (pass_end (w_ext w) (pass evaluation_step_of (w_ext w) batches))
             (w_stdout w)
             (w_calls w ++ concat (map step_calls (pass evaluation_step_of (w_ext w) batches)))
             (w_files w)).
Proof.
  induction batches as [|[images labels] bs IH]; intros c t tl w.
  - cbn. unfold ret. rewrite app_nil_r. now rewrite <- world_eta.
  - cbn [for_in pass]. unfold bind at 1. unfold test_batch at 1.
    unfold bind, eff_val, ret.
    cbn [w_ext w_stdout w_calls w_files set_ext add_call fst snd].
    destruct (module_call model (tensor_to images device) (w_ext w))
      as [outputs e1] eqn:E1.
    cbn [w_ext w_stdout w_calls w_files set_ext add_call fst snd].
    destruct (criterion_call criterion outputs (tensor_to labels device) e1)
      as [loss e2] eqn:E2.
    cbn [w_ext w_stdout w_calls w_files set_ext add_call fst snd].
    rewrite IH.
    cbn [w_ext w_stdout w_calls w_files set_ext add_call fst snd].
    assert (Hst : evaluation_step_of (w_ext w) (images, labels)
                  = BatchStep [Forward model (tensor_to images device);
                               LossOf criterion outputs (tensor_to labels device)]
                              (item loss)
                              (count_correct outputs (tensor_to labels device))
                              (size0 (tensor_to labels device))
                              e2).
    { unfold evaluation_step. cbn [fst snd]. rewrite E1. cbn [fst snd]. now rewrite E2. }
    rewrite Hst.
    cbn [step_ext step_loss step_correct step_size step_calls map concat fold_left].
    unfold pass_end. cbn [fold_left step_ext].
    rewrite <- !app_assoc. reflexivity.
Qed.

(** An epoch that completes has done what its second account says: the
    calls, the metrics line, the outside world at its end, the save exactly
    when the test accuracy exceeds [best_accuracy]; and no divisor was 0. *)
Lemma epoch_body_exact (e : Z) (locals : frame) (w : world) :
  match body e locals w with
  | (Ok locals', w') =>
      divisors_positive_at (w_ext w)
      /\ test_accuracy locals' = Some (test_accuracy_at (w_ext w))
      /\ w_ext w' = end_at (w_ext w)
      /\ if Qgtb (test_accuracy_at (w_ext w)) (best_accuracy locals)
         then w_calls w' = (w_calls w ++ calls_at (w_ext w)
                            ++ [TorchSave (state_dict model (end_at (w_ext w)))
                                          "best_model.pth"])%list
              /\ w_stdout w'
                 = (w_stdout w
                    ++ [MsgEpoch (e + 1) num_epochs
                                 (train_loss_at (w_ext w)) (train_accuracy_at (w_ext w))
                                 (test_loss_at (w_ext w)) (test_accuracy_at (w_ext w));
                        MsgModelSaved (e + 1) (test_accuracy_at (w_ext w))])%list
         else w_calls w' = (w_calls w ++ calls_at (w_ext w))%list
              /\ w_stdout w'
                 = (w_stdout w
                    ++ [MsgEpoch (e + 1) num_epochs
                                 (train_loss_at (w_ext w)) (train_accuracy_at (w_ext w))
                                 (test_loss_at (w_ext w)) (test_accuracy_at (w_ext w))])%list
  | (Raise _, _) => True
  end.
Proof.
  unfold epoch_body.
  unfold bind at 1. unfold eff at 1.
  cbn [w_ext w_stdout w_calls w_files set_ext add_call fst snd].
  unfold bind at 1. unfold eff_val at 1.
  cbn [w_ext w_stdout w_calls w_files set_ext add_call fst snd].
  destruct (loader_iter train_loader (module_train model (w_ext w))) as [trb x1] eqn:Etr.
  unfold bind at 1. rewrite train_pass_exact.
  cbn [w_ext w_stdout w_calls w_files set_ext add_call fst snd].
  set (trs := pass training_step_of x1 trb).
  assert (Htrb : train_batches_at (w_ext w) = trb)
    by (unfold train_pass_batches; now rewrite Etr).
  assert (Htrs : train_steps_at (w_ext w) = trs)
    by (unfold train_pass_steps; now rewrite Htrb, Etr).
  assert (Htre : train_end_at (w_ext w) = pass_end x1 trs)
    by (unfold train_pass_end; now rewrite Htrs, Etr).
  change (fold_left (fun a s => (a + step_loss s)%Q) trs 0%Q) with (pass_loss trs).
  change (fold_left (fun a s => a + step_correct s) trs 0) with (pass_correct trs).
  change (fold_left (fun a s => a + step_size s) trs 0) with (pass_size trs).
  (* epoch_loss = running_loss / len(train_loader) *)
  unfold bind at 1.
  destruct (Nat.eq_dec (loader_len train_loader) 0) as [Hlen1|Hlen1].
  { rewrite Hlen1, truediv_zero. exact I. }
  rewrite truediv_ok by lia.
  (* epoch_acc = correct / total *)
  unfold bind at 1.
  destruct (Nat.eq_dec (pass_size trs) 0) as [Hs1|Hs1].
  { rewrite Hs1, truediv_zero. exact I. }
  rewrite truediv_ok by lia.
  unfold bind at 1. unfold eff at 1.
  cbn [w_ext w_stdout w_calls w_files set_ext add_call fst snd].
  unfold bind at 1. unfold with_no_grad at 1. unfold bind at 1. unfold eff_val at 1.
  cbn [w_ext w_stdout w_calls w_files set_ext add_call fst snd].
  assert (Hts : test_start_at (w_ext w)
                = set_grad_enabled false (module_eval model (pass_end x1 trs)))
    by (unfold test_pass_start; now rewrite Htre).
  destruct (loader_iter test_loader
              (set_grad_enabled false (module_eval model (pass_end x1 trs))))
    as [teb x2] eqn:Ete.
  rewrite test_pass_exact.
  cbn [w_ext w_stdout w_calls w_files set_ext add_call fst snd].
  set (tes := pass evaluation_step_of x2 teb).
  assert (Hteb : test_batches_at (w_ext w) = teb)
    by (unfold test_pass_batches; now rewrite Hts, Ete).
  assert (Htes : test_steps_at (w_ext w) = tes)
    by (unfold test_pass_steps; now rewrite Hteb, Hts, Ete).
  assert (Htee : test_end_at (w_ext w)
                 = set_grad_enabled (is_grad_enabled (module_eval model (pass_end x1 trs)))
                                    (pass_end x2 tes))
    by (unfold test_pass_end; now rewrite Htes, Htre, Hts, Ete).
  change (fold_left (fun a s => (a + step_loss s)%Q) tes 0%Q) with (pass_loss tes).
  change (fold_left (fun a s => a + step_correct s) tes 0) with (pass_correct tes).
  change (fold_left (fun a s => a + step_size s) tes 0) with (pass_size tes).
  (* test_loss /= len(test_loader) *)
  unfold bind at 1.
  destruct (Nat.eq_dec (loader_len test_loader) 0) as [Hlen2|Hlen2].
  { rewrite Hlen2, truediv_zero. exact I. }
  rewrite truediv_ok by lia.
  (* test_accuracy = test_correct / test_total *)
  unfold bind at 1.
  destruct (Nat.eq_dec (pass_size tes) 0) as [Hs2|Hs2].
  { rewrite Hs2, truediv_zero. exact I. }
  rewrite truediv_ok by lia.
  assert (Htl : train_loss_at (w_ext w) = (pass_loss trs / Qnat (loader_len train_loader))%Q)
    by (unfold epoch_train_loss; now rewrite Htrs).
  assert (Hta : train_accuracy_at (w_ext w)
                = (Qnat (pass_correct trs) / Qnat (pass_size trs))%Q)
    by (unfold epoch_train_accuracy; now rewrite Htrs).
  assert (Hsl : test_loss_at (w_ext w) = (pass_loss tes / Qnat (loader_len test_loader))%Q)
    by (unfold epoch_test_loss; now rewrite Htes).
  assert (Hsa : test_accuracy_at (w_ext w)
                = (Qnat (pass_correct tes) / Qnat (pass_size tes))%Q)
    by (unfold epoch_test_accuracy; now rewrite Htes).
  assert (Hdiv : divisors_positive_at (w_ext w)).
  { unfold epoch_divisors_positive. rewrite Htrs, Htes. lia. }
  unfold epoch_calls, epoch_end, epoch_scheduler_calls.
  rewrite Htl, Hta, Hsl, Hsa, Htrb, Htrs, Hteb, Htes, Htee.
  unfold bind at 1. unfold print at 1.
  cbn [w_ext w_stdout w_calls w_files set_ext add_call add_line fst snd].
  unfold bind at 1.
  destruct scheduler as [s|]; unfold eff, ret;
    cbn [w_ext w_stdout w_calls w_files set_ext add_call add_line fst snd];
    (destruct (Qgtb (Qnat (pass_correct tes) / Qnat (pass_size tes)) (best_accuracy locals))
       eqn:Hgt;
     unfold bind, ask, torch_save, print, ret;
     cbn [w_ext w_stdout w_calls w_files set_ext add_call add_line write_file fst snd
          test_accuracy best_accuracy];
     (split; [exact Hdiv|]); (split; [reflexivity|]); (split; [reflexivity|]);
     (split; [repeat first [rewrite <- app_assoc | progress cbn [app]]; reflexivity|]);
     repeat first [rewrite <- app_assoc | progress cbn [app]]; reflexivity).
Qed.

Lemma pass_training_steps (x : ext) (batches : list (tensor * tensor)) :
  Forall2 train_step_of batches (map step_calls (pass training_step_of x batches)).
Proof.
  revert x. induction batches as [|b bs IH]; intros x; cbn [pass map]; constructor.
  - eexists. eexists. reflexivity.
  - apply IH.
Qed.


(** Epoch [k] of a run whose first [k + 1] epochs complete, against the
    second account of the epoch taken in the outside world the epoch
    started in. *)
Lemma epoch_exact (k : nat) (w0 : world) locals' w' :
  after (S k) w0 = (Ok locals', w') ->
  divisors_positive_at (w_ext (snd (after k w0)))
  /\ accuracy w0 k = Some (test_accuracy_at (w_ext (snd (after k w0))))
  /\ w_ext w' = end_at (w_ext (snd (after k w0)))
  /\ (~ written w0 k
      /\ calls_in w0 k = calls_at (w_ext (snd (after k w0)))
      /\ lines_in w0 k = [metrics_at k (w_ext (snd (after k w0)))]
      \/
      written w0 k
      /\ calls_in w0 k
         = (calls_at (w_ext (snd (after k w0)))
            ++ [TorchSave (parameters w0 k) "best_model.pth"])%list
      /\ lines_in w0 k
         = [metrics_at k (w_ext (snd (after k w0)));
            MsgModelSaved (Z.of_nat k + 1)
                          (test_accuracy_at (w_ext (snd (after k w0))))]).
Proof.
  intros HS.
  destruct (epoch_summary k w0 locals' w' HS)
    as (locals & w & acc & Hk & Hacc & _ & _ & _ & _ & _ & _ & Hcase).
  pose proof (epoch_body_exact (Z.of_nat k) locals w) as Hex.
  pose proof HS as Hb. rewrite after_S, Hk in Hb. rewrite Hb in Hex.
  destruct Hex as (Hdiv & Hta & Hext & Hif).
  assert (Hacc' : accuracy w0 k = Some (test_accuracy_at (w_ext w)))
    by (unfold accuracy_of; now rewrite HS).
  assert (Hpar : parameters w0 k = state_dict model (end_at (w_ext w)))
    by (unfold parameters_of; rewrite HS; cbn [snd]; now rewrite Hext).
  assert (acc = test_accuracy_at (w_ext w)) as -> by congruence.
  rewrite Hk. cbn [snd].
  split; [exact Hdiv|]. split; [exact Hacc'|]. split; [exact Hext|].
  unfold calls_of, lines_of in *. rewrite HS, Hk in *. cbn [snd] in *.
  destruct (Qgtb (test_accuracy_at (w_ext w)) (best_accuracy locals)) eqn:Hgt;
    destruct Hif as (Hcalls & Hout).
  - right.
    apply Qgtb_true in Hgt.
    destruct Hcase as [(_ & _ & Hw & _) | (Hle & _)];
      [|exfalso; now apply (Qlt_not_le _ _ Hgt)].
    split; [exact Hw|].
    rewrite Hpar.
    split; [now apply new_calls_app | now apply new_lines_app].
  - left.
    apply Qgtb_false in Hgt.
    destruct Hcase as [(Hlt & _) | (_ & _ & Hnw & _)];
      [exfalso; now apply (Qlt_not_le _ _ Hlt)|].
    split; [exact Hnw|].
    split; [now apply new_calls_app | now apply new_lines_app].
Qed.

(** The training pass of a completed epoch: the steps it takes on the
    batches the training loader yielded, and the outside world the epoch
    leaves. *)
Lemma epoch_training_pass (k : nat) (w0 : world) locals' w' :
  after (S k) w0 = (Ok locals', w') ->
  parameters w0 k = state_dict model (end_at (w_ext (snd (after k w0))))
  /\ exists rest,
       calls_in w0 k
       = ([ModuleTrain model;
           LoaderIter train_loader (train_batches_at (w_ext (snd (after k w0))))]
          ++ concat (map step_calls (train_steps_at (w_ext (snd (after k w0)))))
          ++ rest)%list.
Proof.
  intros HS.
  destruct (epoch_exact k w0 locals' w' HS) as (_ & _ & Hext & Hcase).
  split.
  - unfold parameters_of. rewrite HS. cbn [snd]. now rewrite Hext.
  - destruct Hcase as [(_ & -> & _) | (_ & -> & _)]; unfold epoch_calls;
      eexists; rewrite <- ?app_assoc; reflexivity.
Qed.

(** ** The claims about the training loop *)

(** C2.  In a run whose first [k] epochs complete, the checkpoint file is
    written in epoch [e < k] if and only if the test accuracy of epoch [e] is
    strictly greater than the test accuracy of every earlier epoch, and
    strictly greater than 0.0 when there is no earlier epoch.  And once a
    checkpoint has been written, the file [best_model.pth] holds the
    parameters the model had at the end of an epoch [j] in which it was
    written, whose test accuracy no epoch so far exceeds. *)
Theorem checkpoint_written_iff_strict_improvement (k : nat) (w0 : world) locals w :
  after k w0 = (Ok locals, w) ->
  (forall e, e < k ->
     exists a, accuracy w0 e = Some a
       /\ (written w0 e <->
             (forall j b, j < e -> accuracy w0 j = Some b -> (b < a)%Q)
             /\ (e = 0 -> (0 < a)%Q)))
  /\ ((exists e, e < k /\ written w0 e) ->
      exists j a, j < k
        /\ written w0 j
        /\ accuracy w0 j = Some a
        /\ w_files w !! "best_model.pth" = Some (parameters w0 j)
        /\ forall i b, i < k -> accuracy w0 i = Some b -> (b <= a)%Q).
Proof.
  intros Hk. split.
  - intros e He.
    destruct (after_prefix k (S e) w0 locals w Hk ltac:(lia)) as (l1 & w1 & H1).
    destruct (epoch_summary e w0 l1 w1 H1)
      as (le & we & a & Hpre & Ha & Hnn & _ & _ & _ & _ & _ & Hcase).
    destruct (best_invariant e w0 le we Hpre) as (Hb0 & Hmax & Hfile).
    exists a. split; [exact Ha|]. split.
    + intros Hw.
      destruct Hcase as [(Hlt & _) | (_ & _ & Hnw & _)]; [|contradiction].
      split.
      * intros j b Hj Hjb. eapply Qle_lt_trans; [|exact Hlt]. now apply (Hmax j).
      * intros _. eapply Qle_lt_trans; [exact Hb0 | exact Hlt].
    + intros [Hearlier Hfirst].
      destruct Hcase as [(_ & _ & Hw & _) | (Hle & _ & _ & _)]; [exact Hw|].
      exfalso.
      destruct Hfile as [(Hzero & _) | (j & Hj & Haj & _)].
      * rewrite Hzero in Hle.
        destruct e as [|e'].
        -- apply (Qlt_irrefl 0). eapply Qlt_le_trans; [apply Hfirst; reflexivity | exact Hle].
        -- destruct (accuracy_defined (S e') 0 w0 le we Hpre ltac:(lia)) as (a0 & Ha0 & Hnn0).
           apply (Qlt_irrefl a0).
           eapply Qlt_le_trans; [apply (Hearlier 0 a0); [lia | exact Ha0]|].
           eapply Qle_trans; [exact Hle | exact Hnn0].
      * apply (Qlt_irrefl a).
        eapply Qle_lt_trans; [exact Hle|]. now apply (Hearlier j).
  - intros (e & He & Hw).
    destruct (best_invariant k w0 locals w Hk) as (_ & Hmax & Hfile).
    destruct Hfile as [(_ & _ & Hnone & _) | (j & Hj & Haj & Hwj & Hins & _)].
    + exfalso. now apply (Hnone e).
    + exists j, (best_accuracy locals).
      split; [exact Hj|]. split; [exact Hwj|]. split; [exact Haj|].
      split; [rewrite Hins; apply lookup_insert_eq | exact Hmax].
Qed.


(** C6.  In every run of [train_and_test_model], whether it returns or
    raises: every [torch.save] goes to the path [best_model.pth]; no call
    writes to the file system in another way or starts a process; every other
    file is left as it was; and an epoch whose test accuracy exceeds
    [best_accuracy] leaves in [best_model.pth] the parameters the model has
    at the end of that epoch, whatever the file held before. *)
Theorem checkpoint_path_is_fixed (w0 : world) :
  (forall sd p, In (TorchSave sd p) (new_calls w0 (snd (run w0))) -> p = "best_model.pth")
  /\ (forall c, In c (new_calls w0 (snd (run w0))) -> os_call c = false)
  /\ (forall p, p <> "best_model.pth" -> w_files (snd (run w0)) !! p = w_files w0 !! p)
  /\ (forall e locals w locals' w' a,
        after e w0 = (Ok locals, w) ->
        after (S e) w0 = (Ok locals', w') ->
        accuracy w0 e = Some a ->
        (best_accuracy locals < a)%Q ->
        written w0 e
        /\ w_files w' !! "best_model.pth" = Some (parameters w0 e)).
Proof.
  destruct (run_world w0) as (Hc & Hf).
  destruct (after_frame (Z.to_nat num_epochs) w0) as ((cs & Hcs & Hall) & Hfiles).
  assert (Hnew : new_calls w0 (snd (run w0)) = cs).
  { apply new_calls_app. now rewrite Hc. }
  rewrite Hnew. rewrite List.Forall_forall in Hall.
  split; [|split; [|split]].
  - intros sd p Hin. exact (Hall _ Hin).
  - intros c Hin. specialize (Hall _ Hin). now destruct c.
  - intros p Hp. rewrite Hf. now apply Hfiles.
  - intros e locals w locals' w' a He HSe Ha Hlt.
    destruct (epoch_summary e w0 locals' w' HSe)
      as (l & w1 & acc & Hpre & Hacc & _ & _ & _ & _ & _ & _ & Hcase).
    rewrite He in Hpre. injection Hpre as <- <-.
    rewrite Ha in Hacc. injection Hacc as <-.
    destruct Hcase as [(_ & _ & Hw & Hfw) | (Hle & _)].
    + split; [exact Hw|]. rewrite Hfw. apply lookup_insert_eq.
    + exfalso. apply (Qlt_irrefl a). eapply Qle_lt_trans; eassumption.
Qed.

(** C7, amended.  A run of [train_and_test_model] that returns has printed
    the opening line, then for each of the [num_epochs] epochs, in order,
    one metrics line, and then the closing line.  The metrics line of epoch
    [e] shows the epoch number [e + 1], [num_epochs], and the four metrics
    of that epoch: the sum of the batch losses of the training pass over
    [len(train_loader)], the share of correct predictions among the
    training samples, and the same two for the test pass; the test accuracy
    shown is the one the save is decided on.  The line is followed by the
    notice of the save exactly when the checkpoint was written in that
    epoch. *)
Theorem one_metrics_line_per_epoch (w0 : world) :
  fst (run w0) = Ok tt ->
  exists lines : list (list message),
    length lines = Z.to_nat num_epochs
    /\ new_lines w0 (snd (run w0))
       = ([MsgTraining num_epochs] ++ concat lines ++ [MsgTrainingCompleted])%list
    /\ forall e ls, lines !! e = Some ls ->
         let x := w_ext (snd (after e w0)) in
         accuracy w0 e = Some (test_accuracy_at x)
         /\ (~ written w0 e
             /\ ls = [MsgEpoch (Z.of_nat e + 1) num_epochs
                               (train_loss_at x) (train_accuracy_at x)
                               (test_loss_at x) (test_accuracy_at x)]
             \/
             written w0 e
             /\ ls = [MsgEpoch (Z.of_nat e + 1) num_epochs
                               (train_loss_at x) (train_accuracy_at x)
                               (test_loss_at x) (test_accuracy_at x);
                      MsgModelSaved (Z.of_nat e + 1) (test_accuracy_at x)]).
Proof.
  intros Hok.
  destruct (run_after w0) as [(locals & w & Hk & Hrun) | (ex & w & _ & Hrun)];
    rewrite Hrun in Hok |- *; [|discriminate].
  exists (map (lines_in w0) (seq 0 (Z.to_nat num_epochs))).
  split; [now rewrite length_map, length_seq|].
  split.
  - apply new_lines_app. cbn.
    destruct (after_segments _ _ locals w Hk) as (_ & ->).
    now rewrite <- !app_assoc.
  - intros e ls Hlook x.
    rewrite list_lookup_fmap in Hlook.
    destruct (seq 0 (Z.to_nat num_epochs) !! e) as [e'|] eqn:Hseq; [|discriminate].
    apply lookup_seq in Hseq. destruct Hseq as [-> He]. cbn in Hlook.
    injection Hlook as <-.
    destruct (after_prefix _ (S e) w0 locals w Hk ltac:(lia)) as (l1 & w1 & H1e).
    destruct (epoch_exact e w0 l1 w1 H1e) as (_ & Hacc & _ & Hcase).
    fold x in Hacc, Hcase.
    split; [exact Hacc|].
    destruct Hcase as [(Hnw & _ & Hl) | (Hw & _ & Hl)]; [left | right];
      (split; [assumption|]); exact Hl.
Qed.


(** C10.  When the test accuracy of every epoch of the run is 0, and in
    particular when [num_epochs] is 0 (or negative) and no epoch runs, the run
    saves nothing: no [torch.save] among its calls, and the files are as they
    were. *)
Theorem no_checkpoint_when_accuracy_stays_zero (w0 : world) :
  (forall e a, e < Z.to_nat num_epochs -> accuracy w0 e = Some a -> (a == 0)%Q)
  \/ (num_epochs <= 0)%Z ->
  w_files (snd (run w0)) = w_files w0
  /\ forall sd p, ~ In (TorchSave sd p) (new_calls w0 (snd (run w0))).
Proof.
  intros Hzero.
  assert (Hz : forall e a, e < Z.to_nat num_epochs -> accuracy w0 e = Some a -> (a == 0)%Q).
  { destruct Hzero as [Hz | Hn]; [exact Hz | intros; lia]. }
  clear Hzero.
  assert (Hpre : forall k locals w,
             k <= Z.to_nat num_epochs -> after k w0 = (Ok locals, w) ->
             w_files w = w_files w0
             /\ forall sd p, ~ In (TorchSave sd p) (new_calls w0 w)).
  { intros k locals w Hk Hafter.
    destruct (best_invariant k w0 locals w Hafter) as (_ & _ & Hfile).
    destruct Hfile as [(_ & Hsame & _ & Hquiet) | (j & Hj & Haj & _ & _ & Hpos)].
    - now split.
    - exfalso. specialize (Hz j _ ltac:(lia) Haj).
      rewrite Hz in Hpos. now apply (Qlt_irrefl 0). }
  destruct (run_world w0) as (Hc & Hf).
  assert (Hnew : new_calls w0 (snd (run w0))
                 = new_calls w0 (snd (after (Z.to_nat num_epochs) w0)))
    by (unfold new_calls; now rewrite Hc).
  rewrite Hnew, Hf.
  destruct (after_cases (Z.to_nat num_epochs) w0)
    as [(locals & w & Hk) | (j & locals & wj & w' & Hj & Hprej & Hk & Hr)];
    rewrite Hk; cbn [snd].
  - apply (Hpre (Z.to_nat num_epochs) locals w); [lia | exact Hk].
  - destruct (Hpre j locals wj ltac:(lia) Hprej) as (Hsame & Hquiet).
    destruct Hr as (_ & Hfr & (cs & Hcs & Hq) & _).
    split; [now rewrite Hfr|].
    intros sd p Hin.
    destruct (after_calls_prefix j w0 locals wj Hprej) as (cs0 & Hcs0).
    unfold new_calls in Hquiet, Hin.
    rewrite Hcs0, drop_app_length in Hquiet.
    rewrite Hcs, Hcs0, <- app_assoc, drop_app_length in Hin.
    apply in_app_or in Hin. destruct Hin as [Hin|Hin].
    + exact (Hquiet _ _ Hin).
    + exact (quiet_not_save cs Hq _ _ Hin).
Qed.

(** ** Further properties of the training loop *)

Lemma run_files_frame (w0 : world) p :
  p <> "best_model.pth" -> w_files (snd (run w0)) !! p = w_files w0 !! p.
Proof.
  intros Hp. destruct (run_world w0) as (_ & ->).
  now apply after_frame.
Qed.

Lemma train_steps_no_scheduler bs steps :
  Forall2 train_step_of bs steps ->
  List.filter is_scheduler_step (concat steps) = [].
Proof.
  induction 1 as [|b cs bs steps (outputs & loss & ->) _ IH]; [reflexivity|].
  cbn. exact IH.
Qed.

Lemma eval_steps_no_scheduler bs steps :
  Forall2 eval_step_of bs steps ->
  List.filter is_scheduler_step (concat steps) = [].
Proof.
  induction 1 as [|b cs bs steps (outputs & ->) _ IH]; [reflexivity|].
  cbn. exact IH.
Qed.

(** X1.  In every epoch that completes, the scheduler, when there is one, is
    stepped exactly once, with the test loss that the metrics line of the
    epoch shows; without a scheduler no such call is made. *)
Theorem scheduler_steps_once_per_epoch (k : nat) (w0 : world) locals' w' :
  after (S k) w0 = (Ok locals', w') ->
  exists train_loss train_acc test_loss test_acc,
    hd_error (lines_in w0 k)
      = Some (MsgEpoch (Z.of_nat k + 1) num_epochs train_loss train_acc test_loss test_acc)
    /\ List.filter is_scheduler_step (calls_in w0 k)
       = match scheduler with
         | Some s => [SchedulerStep s test_loss]
         | None => []
         end.
Proof.
  intros HS.
  destruct (after_step k w0 locals' w' HS) as (locals & w & Hk & Hdone).
  destruct Hdone as (trb & teb & tsteps & esteps & x1 & x2 & tl & ta & sl & tc & Hdone).
  cbn zeta in Hdone.
  destruct Hdone as (_ & _ & _ & _ & _ & _ & Hst & Hse & _ & Hcase).
  exists tl, ta, sl, (Qnat tc / Qnat (samples device teb))%Q.
  unfold lines_of, calls_of. rewrite HS, Hk. cbn [snd].
  destruct (Qgtb _ _); destruct Hcase as (_ & Hcalls & Hout & _);
    rewrite (new_calls_app _ _ _ Hcalls), (new_lines_app _ _ _ Hout);
    (split; [reflexivity|]);
    rewrite !List.filter_app,
            (train_steps_no_scheduler _ _ Hst), (eval_steps_no_scheduler _ _ Hse);
    destruct scheduler; reflexivity.
Qed.

(** X2.  An epoch that fails on one of its divisions has printed nothing and
    written no file: there is never a metrics line or a checkpoint of an
    epoch whose metrics could not be computed. *)
Theorem failing_epoch_prints_and_saves_nothing (e : Z) locals w :
  fst (body e locals w) = Raise ZeroDivisionError ->
  w_stdout (snd (body e locals w)) = w_stdout w
  /\ w_files (snd (body e locals w)) = w_files w
  /\ forall sd p, ~ In (TorchSave sd p) (new_calls w (snd (body e locals w))).
Proof.
  intros Hex.
  pose proof (epoch_body_spec e locals w) as Hspec.
  destruct (body e locals w) as [[locals'|ex'] w']; cbn in Hex; [discriminate|].
  destruct Hspec as (_ & Hout & Hfiles & (cs & Hcs & Hq) & _).
  cbn [snd]. repeat split; try assumption.
  rewrite (new_calls_app _ _ _ Hcs). now apply quiet_not_save.
Qed.

Lemma completed_lines_are_epoch_lines (k : nat) (w0 : world) locals w :
  after k w0 = (Ok locals, w) ->
  ~ In MsgTrainingCompleted (concat (map (lines_in w0) (seq 0 k))).
Proof.
  intros Hk Hin.
  apply in_concat in Hin. destruct Hin as (ls & Hls & Hin).
  apply in_map_iff in Hls. destruct Hls as (e & <- & He).
  apply in_seq in He.
  destruct (after_prefix _ (S e) w0 locals w Hk ltac:(lia)) as (l1 & w1 & H1e).
  destruct (epoch_summary e w0 l1 w1 H1e)
    as (_ & _ & a & _ & _ & _ & _ & _ & _ & _ & (tl & ta & sl & Hl) & _).
  destruct Hl as [Hl | Hl]; rewrite Hl in Hin; cbn in Hin;
    intuition discriminate.
Qed.

(** X3.  The first line [train_and_test_model] prints is always the opening
    line, also when it goes on to raise; and the closing line "Training
    completed!" is printed if and only if it returns. *)
Theorem training_completed_iff_returns (w0 : world) :
  hd_error (new_lines w0 (snd (run w0))) = Some (MsgTraining num_epochs)
  /\ (In MsgTrainingCompleted (new_lines w0 (snd (run w0))) <-> fst (run w0) = Ok tt).
Proof.
  rewrite train_and_test_model_after.
  destruct (after_cases (Z.to_nat num_epochs) w0)
    as [(locals & w & Hk) | (j & locals & wj & w' & Hj & Hprej & Hk & Hr)];
    rewrite Hk; cbn [fst snd].
  - destruct (after_segments _ _ locals w Hk) as (_ & Hout).
    assert (Hnew : new_lines w0 (add_line MsgTrainingCompleted w)
                   = ([MsgTraining num_epochs]
                      ++ concat (map (lines_in w0) (seq 0 (Z.to_nat num_epochs)))
                      ++ [MsgTrainingCompleted])%list).
    { apply new_lines_app. cbn. rewrite Hout. now rewrite <- !app_assoc. }
    rewrite Hnew. split; [reflexivity|].
    split; [reflexivity|]. intros _.
    apply in_or_app. right. apply in_or_app. right. now left.
  - destruct (after_segments _ _ locals wj Hprej) as (_ & Hout).
    destruct Hr as (Hsame & _).
    assert (Hnew : new_lines w0 w'
                   = ([MsgTraining num_epochs]
                      ++ concat (map (lines_in w0) (seq 0 j)))%list).
    { apply new_lines_app. now rewrite Hsame, Hout. }
    rewrite Hnew. split; [reflexivity|].
    split; [|discriminate].
    intros Hin. exfalso. cbn in Hin. destruct Hin as [Hin | Hin]; [discriminate|].
    exact (completed_lines_are_epoch_lines j w0 locals wj Hprej Hin).
Qed.

(** X15.  After any number of completed epochs, [best_accuracy] is the
    largest of 0.0 and the test accuracies of those epochs: no epoch had a
    greater accuracy, and it is 0.0 or the accuracy of one of them.  From one
    epoch to the next it never decreases. *)
Theorem best_accuracy_is_running_maximum (k : nat) (w0 : world) locals w :
  after k w0 = (Ok locals, w) ->
  (forall j b, j < k -> accuracy w0 j = Some b -> (b <= best_accuracy locals)%Q)
  /\ (best_accuracy locals = 0%Q
      \/ exists j, j < k /\ accuracy w0 j = Some (best_accuracy locals))
  /\ (forall locals' w',
        after (S k) w0 = (Ok locals', w') ->
        (best_accuracy locals <= best_accuracy locals')%Q).
Proof.
  intros Hk.
  destruct (best_invariant k w0 locals w Hk) as (_ & Hmax & Hfile).
  split; [exact Hmax|]. split.
  - destruct Hfile as [(Hzero & _) | (j & Hj & Haj & _)]; [now left | right; eauto].
  - intros locals' w' HS.
    destruct (epoch_summary k w0 locals' w' HS)
      as (l & w1 & acc & Hpre & _ & _ & _ & _ & _ & _ & _ & Hcase).
    rewrite Hk in Hpre. injection Hpre as <- <-.
    destruct Hcase as [(Hlt & -> & _) | (_ & -> & _)].
    + now apply Qlt_le_weak.
    + apply Qle_refl.
Qed.

End Loop.

(** ** The calls of the other steps of the script *)

Section Calls.
Context {A B : Type} (P : call -> Prop).

Lemma makes_only_ret (a : A) : makes_only P (ret a).
Proof. intros w. exists []. cbn. now rewrite app_nil_r. Qed.

Lemma makes_only_raise (ex : exn) : makes_only P (raise ex : M A).
Proof. intros w. exists []. cbn. now rewrite app_nil_r. Qed.

Lemma makes_only_print (m : message) : makes_only P (print m).
Proof. intros w. exists []. cbn. now rewrite app_nil_r. Qed.

Lemma makes_only_ask (f : ext -> A) : makes_only P (ask f).
Proof. intros w. exists []. cbn. now rewrite app_nil_r. Qed.

Lemma makes_only_ask_result (f : ext -> result A) : makes_only P (ask_result f).
Proof. intros w. exists []. cbn. now rewrite app_nil_r. Qed.

Lemma makes_only_lift_result (r : result A) : makes_only P (lift_result r).
Proof. intros w. exists []. cbn. now rewrite app_nil_r. Qed.

Lemma makes_only_sys (c : call) op : P c -> makes_only P (sys c op).
Proof.
  intros Hc w. exists [c]. unfold sys.
  destruct (op (w_ext w)) as [[ex|] e']; cbn; split; try reflexivity; now repeat constructor.
Qed.

Lemma makes_only_eff (c : call) op : P c -> makes_only P (eff c op).
Proof. intros Hc w. exists [c]. cbn. split; [reflexivity | now repeat constructor]. Qed.

(** Sequencing, with what is known of the value the first part returns. *)
Lemma makes_only_bind (Q : A -> Prop) (c : M A) (k : A -> M B) :
  makes_only P c ->
  (forall w a w', c w = (Ok a, w') -> Q a) ->
  (forall a, Q a -> makes_only P (k a)) ->
  makes_only P (bind c k).
Proof.
  intros Hc HQ Hk w. unfold bind.
  destruct (Hc w) as (cs & Hcs & Hall).
  destruct (c w) as [[a|ex] w'] eqn:E; cbn [snd] in Hcs.
  - destruct (Hk a (HQ _ _ _ E) w') as (cs' & Hcs' & Hall').
    exists (cs ++ cs')%list. split.
    + now rewrite Hcs', Hcs, app_assoc.
    + apply Forall_app. now split.
  - exists cs. now split.
Qed.

Lemma makes_only_seq (c : M A) (k : A -> M B) :
  makes_only P c -> (forall a, makes_only P (k a)) -> makes_only P (bind c k).
Proof.
  intros Hc Hk. apply (makes_only_bind (fun _ => True)); auto.
Qed.

Lemma makes_only_impl (P' : call -> Prop) (c : M A) :
  (forall x, P x -> P' x) -> makes_only P c -> makes_only P' c.
Proof.
  intros Himp Hc w. destruct (Hc w) as (cs & Hcs & Hall).
  exists cs. split; [exact Hcs|]. revert Hall. apply List.Forall_impl. exact Himp.
Qed.

End Calls.

Ltac only_calls :=
  repeat first
    [ apply makes_only_ret
    | apply makes_only_raise
    | apply makes_only_print
    | apply makes_only_ask
    | apply makes_only_ask_result
    | apply makes_only_lift_result
    | apply makes_only_sys; reflexivity
    | apply makes_only_seq; [|intros ?]
    | match goal with
      | |- makes_only _ (if ?b then _ else _) => destruct b
      | |- makes_only _ (match ?x with _ => _ end) => destruct x
      end ].

Lemma download_calls kp ds od :
  makes_only (fun c => os_call c = true) (download_data_from_kaggle kp ds od).
Proof. unfold download_data_from_kaggle. only_calls. Qed.

Lemma create_dataloaders_calls od bs nw :
  makes_only (fun _ => False) (create_dataloaders od bs nw).
Proof. unfold create_dataloaders. only_calls. Qed.

Lemma get_model_calls name nc :
  makes_only (fun _ => False) (get_model name nc).
Proof. unfold get_model. only_calls. Qed.

Lemma main_calls args : makes_only (main_call args) (main args).
Proof.
  unfold main.
  apply makes_only_seq; [apply makes_only_print | intros _].
  apply makes_only_seq; [|intros _].
  { eapply makes_only_impl; [|apply download_calls].
    intros c; destruct c; cbn; intros; try discriminate; exact I. }
  apply makes_only_seq; [|intros [train_loader test_loader]].
  { eapply makes_only_impl; [|apply create_dataloaders_calls]. contradiction. }
  apply (makes_only_bind _ (built_by_get_model (model args) (num_classes args))).
  { eapply makes_only_impl; [|apply get_model_calls]. contradiction. }
  { intros w m w' E. exists w. now rewrite E. }
  intros m Hm.
  apply makes_only_seq; [apply makes_only_ask | intros cuda].
  apply makes_only_seq; [apply makes_only_eff; exact Hm | intros _].
  apply makes_only_seq; [apply makes_only_print | intros _].
  eapply makes_only_impl; [|intros w; apply run_calls_allowed].
  intros c Hc; destruct c; cbn in Hc |- *; subst; eauto; contradiction.
Qed.

(** ** get_model *)

(** [get_model] for a supported name: what [nn.Linear] makes of
    [num_classes] decides between the network and an exception. *)
Lemma get_model_supported name nc w :
  name = "resnet18" \/ name = "resnet50" ->
  get_model name nc w =
  match nn_Linear_raises (if String.eqb name "resnet18" then 512 else 2048) nc (w_ext w) with
  | None =>
      (Ok (Module_ (if String.eqb name "resnet18" then ResNet18 else ResNet50) None true
                   (Sequential [Linear (if String.eqb name "resnet18" then 512 else 2048) nc])),
       add_line MsgModelLoaded (add_line (MsgLoadingModel name nc) w))
  | Some ex => (Raise ex, add_line (MsgLoadingModel name nc) w)
  end.
Proof.
  intros [-> | ->]; unfold get_model, nn_Linear, bind, print, ask, ret, raise; cbn;
    destruct (nn_Linear_raises _ nc (w_ext w)); reflexivity.
Qed.

Lemma get_model_unsupported name nc w :
  name <> "resnet18" -> name <> "resnet50" ->
  get_model name nc w =
  (Raise (ValueError ("Unsupported model: " ++ name)),
   add_line (MsgLoadingModel name nc) w).
Proof.
  intros H18 H50. unfold get_model, bind, print, raise, ret.
  apply String.eqb_neq in H18, H50. now rewrite H18, H50.
Qed.

Lemma built_by_get_model_inv name nc m :
  built_by_get_model name nc m ->
  (name = "resnet18" /\ m = Module_ ResNet18 None true (Sequential [Linear 512 nc]))
  \/ (name = "resnet50" /\ m = Module_ ResNet50 None true (Sequential [Linear 2048 nc])).
Proof.
  intros [w Hw].
  destruct (String.eqb_spec name "resnet18") as [->|H18].
  - left. rewrite get_model_supported in Hw by now left.
    destruct (nn_Linear_raises _ nc (w_ext w)); cbn in Hw; [discriminate|].
    now injection Hw as <-.
  - destruct (String.eqb_spec name "resnet50") as [->|H50].
    + right. rewrite get_model_supported in Hw by now right.
      destruct (nn_Linear_raises _ nc (w_ext w)); cbn in Hw; [discriminate|].
      now injection Hw as <-.
    + now rewrite get_model_unsupported in Hw.
Qed.

(** ** The script, step by step *)

(** [get_model] prints, and changes nothing else. *)
Lemma get_model_frame name nc w :
  w_ext (snd (get_model name nc w)) = w_ext w
  /\ w_calls (snd (get_model name nc w)) = w_calls w
  /\ w_files (snd (get_model name nc w)) = w_files w.
Proof.
  unfold get_model, nn_Linear, bind, print, ask, ret, raise.
  destruct (String.eqb name "resnet18"); [|destruct (String.eqb name "resnet50")];
    cbn; try destruct (nn_Linear_raises _ nc (w_ext w)); cbn; auto.
Qed.

(** [main] is its four steps in a row; the first that raises ends it. *)
Lemma main_steps args w :
  main args w =
  match download_data_from_kaggle (Some (kaggle_json args)) (kaggle_dataset args)
          (output_dir args) (add_line (MsgArguments args) w) with
  | (Raise ex, w1) => (Raise ex, w1)
  | (Ok _, w1) =>
      match create_dataloaders (output_dir args) (batch_size args) (num_workers args) w1 with
      | (Raise ex, w2) => (Raise ex, w2)
      | (Ok (train_loader, test_loader), w2) =>
          match get_model (model args) (num_classes args) w2 with
          | (Raise ex, w3) => (Raise ex, w3)
          | (Ok m, w3) =>
              let d := if cuda_is_available (w_ext w3) then Cuda else Cpu in
              train_and_test_model m train_loader test_loader CrossEntropyLoss (Adam m)
                (Some (ReduceLROnPlateau (Adam m) "min" (1 # 10) 3)) d (num_epochs args)
                (add_line (MsgDevice d)
                   (add_call (ModuleTo m d) (set_ext (module_to m d (w_ext w3)) w3)))
          end
      end
  end.
Proof.
  unfold main. unfold bind at 1. unfold print at 1.
  unfold bind at 1.
  destruct (download_data_from_kaggle _ _ _ _) as [[[]|ex] w1]; [|reflexivity].
  unfold bind at 1.
  destruct (create_dataloaders _ _ _ w1) as [[[tl tel]|ex] w2]; [|reflexivity].
  unfold bind at 1.
  destruct (get_model _ _ w2) as [[m|ex] w3]; [|reflexivity].
  reflexivity.
Qed.

(** ** The claims about the model, the download and misconfiguration *)

(** C1, amended.  For the model name [resnet18] or [resnet50], [get_model]
    builds that network with [weights=None], that is without pretrained
    weights, marks every parameter trainable, and replaces its final layer
    [fc] by [Sequential(Linear(in_features, num_classes))] with the
    [in_features] of the layer it replaces; when [nn.Linear] refuses
    [num_classes], its exception is the outcome and "Model loaded." is not
    printed.  [train_and_test_model] trains the network it is given: in
    every epoch that completes, each batch the training loader yields gets
    one gradient step on that model with the optimizer given, the
    parameters at the end of the epoch are those these steps left, and no
    call is made on another model or optimizer.  In the script the network
    trained is the one [get_model] built, with an Adam optimizer over it. *)
Theorem get_model_builds_network_without_pretrained_weights :
  (forall name nc w,
      name = "resnet18" \/ name = "resnet50" ->
      let in_features := (if String.eqb name "resnet18" then 512 else 2048)%Z in
      match nn_Linear_raises in_features nc (w_ext w) with
      | None =>
          exists m,
            get_model name nc w =
              (Ok m, add_line MsgModelLoaded (add_line (MsgLoadingModel name nc) w))
            /\ m_arch m = (if String.eqb name "resnet18" then ResNet18 else ResNet50)
            /\ m_weights m = None
            /\ m_requires_grad m = true
            /\ m_fc m = Sequential [Linear in_features nc]
      | Some ex =>
          get_model name nc w = (Raise ex, add_line (MsgLoadingModel name nc) w)
      end)
  /\ (forall name nc m, built_by_get_model name nc m -> is_pretrained m = false)
  /\ (forall model train_loader test_loader criterion optimizer scheduler device
             num_epochs w0 e locals' w',
        after_epochs model train_loader test_loader criterion optimizer scheduler device
                     num_epochs (S e) w0 = (Ok locals', w') ->
        let x := w_ext (snd (after_epochs model train_loader test_loader criterion
                                          optimizer scheduler device num_epochs e w0)) in
        let batches := train_pass_batches model train_loader x in
        let steps := train_pass_steps model train_loader criterion optimizer device x in
        batches = fst (loader_iter train_loader (module_train model x))
        /\ Forall2 (train_step model criterion optimizer device)
                   batches (map step_calls steps)
        /\ (exists rest,
              calls_of model train_loader test_loader criterion optimizer scheduler device
                       num_epochs w0 e
              = ([ModuleTrain model; LoaderIter train_loader batches]
                 ++ concat (map step_calls steps) ++ rest)%list)
        /\ parameters_of model train_loader test_loader criterion optimizer scheduler
                         device num_epochs w0 e
           = state_dict model
               (epoch_end model train_loader test_loader criterion optimizer scheduler
                          device x))
  /\ (forall model train_loader test_loader criterion optimizer scheduler device
             num_epochs w0 c,
        In c (new_calls w0 (snd (train_and_test_model model train_loader test_loader
                                   criterion optimizer scheduler device num_epochs w0))) ->
        training_call model train_loader test_loader criterion optimizer scheduler c)
  /\ (forall args w,
        fst (main args w) = Ok tt ->
        exists m train_loader test_loader d w3,
          built_by_get_model (model args) (num_classes args) m
          /\ main args w =
             train_and_test_model m train_loader test_loader CrossEntropyLoss (Adam m)
               (Some (ReduceLROnPlateau (Adam m) "min" (1 # 10) 3)) d (num_epochs args) w3)
  /\ (forall args w c, In c (new_calls w (snd (main args w))) -> main_call args c).
Proof.
  split; [|split; [|split; [|split; [|split]]]].
  - intros name nc w Hname in_features. subst in_features.
    rewrite (get_model_supported name nc w Hname).
    destruct (nn_Linear_raises _ nc (w_ext w)); [reflexivity|].
    eexists. split; [reflexivity|]. cbn. auto.
  - intros name nc m Hm.
    now destruct (built_by_get_model_inv name nc m Hm) as [[_ ->] | [_ ->]].
  - intros model train_loader test_loader criterion optimizer scheduler device
           num_epochs w0 e locals' w' HS x batches steps.
    destruct (epoch_training_pass model train_loader test_loader criterion optimizer
                scheduler device num_epochs e w0 locals' w' HS) as (Hpar & Hcalls).
    split; [reflexivity|].
    split; [apply pass_training_steps|].
    split; [exact Hcalls | exact Hpar].
  - intros model train_loader test_loader criterion optimizer scheduler device
           num_epochs w0 c Hin.
    destruct (run_calls_allowed model train_loader test_loader criterion optimizer
                scheduler device num_epochs w0) as (cs & Hcs & Hall).
    rewrite (new_calls_app _ _ _ Hcs) in Hin.
    rewrite List.Forall_forall in Hall. now apply Hall.
  - intros args w Hok. rewrite main_steps in Hok |- *.
    destruct (download_data_from_kaggle _ _ _ _) as [[[]|ex] w1]; [|discriminate].
    destruct (create_dataloaders _ _ _ w1) as [[[tl tel]|ex] w2]; [|discriminate].
    destruct (get_model _ _ w2) as [[m|ex] w3] eqn:Hm; [|discriminate].
    exists m, tl, tel. eexists. eexists.
    split; [|reflexivity].
    exists w2. now rewrite Hm.
  - intros args w c Hin.
    destruct (main_calls args w) as (cs & Hcs & Hall).
    rewrite (new_calls_app _ _ _ Hcs) in Hin.
    rewrite List.Forall_forall in Hall. now apply Hall.
Qed.

(** C3, amended.  [download_data_from_kaggle] raises [ValueError] for a
    missing credential path (None or the empty string) when the output
    directory is absent or empty, having printed one line and changed
    nothing; [get_model] raises [ValueError] for a model name other than
    [resnet18] and [resnet50], having printed one line.  [main] catches
    nothing: with an empty credential path and no data it ends with that
    [ValueError]; with an unsupported model name it never completes, and ends
    with the [ValueError] of [get_model] once the download and the loaders
    have succeeded. *)
Theorem misconfiguration_raises_value_error :
  (forall kp ds od w,
      falsy kp = true ->
      os_path_exists od (w_ext w) = false \/ os_listdir od (w_ext w) = Ok [] ->
      download_data_from_kaggle kp ds od w =
        (Raise (ValueError "The path to kaggle.json must be provided."),
         add_line (MsgDownloading ds od) w))
  /\ (forall name nc w,
        name <> "resnet18" -> name <> "resnet50" ->
        get_model name nc w =
          (Raise (ValueError ("Unsupported model: " ++ name)),
           add_line (MsgLoadingModel name nc) w))
  /\ (forall args w,
        kaggle_json args = "" ->
        os_path_exists (output_dir args) (w_ext w) = false
        \/ os_listdir (output_dir args) (w_ext w) = Ok [] ->
        main args w =
          (Raise (ValueError "The path to kaggle.json must be provided."),
           add_line (MsgDownloading (kaggle_dataset args) (output_dir args))
                    (add_line (MsgArguments args) w)))
  /\ (forall args w,
        model args <> "resnet18" -> model args <> "resnet50" ->
        (exists ex, fst (main args w) = Raise ex)
        /\ forall w1 loaders w2,
             download_data_from_kaggle (Some (kaggle_json args)) (kaggle_dataset args)
               (output_dir args) (add_line (MsgArguments args) w) = (Ok tt, w1) ->
             create_dataloaders (output_dir args) (batch_size args) (num_workers args) w1
               = (Ok loaders, w2) ->
             main args w =
               (Raise (ValueError ("Unsupported model: " ++ model args)),
                add_line (MsgLoadingModel (model args) (num_classes args)) w2)).
Proof.
  split; [|split; [|split]].
  - intros kp ds od w Hkp Habs. now apply download_absent_no_credentials.
  - intros name nc w. apply get_model_unsupported.
  - intros args w Hkj Habs.
    unfold main. unfold bind at 1. unfold print at 1.
    unfold bind at 1.
    rewrite download_absent_no_credentials; [reflexivity | exact Habs |].
    cbn. rewrite Hkj. reflexivity.
  - intros args w H18 H50.
    assert (Hmain : forall w1 loaders w2,
               download_data_from_kaggle (Some (kaggle_json args)) (kaggle_dataset args)
                 (output_dir args) (add_line (MsgArguments args) w) = (Ok tt, w1) ->
               create_dataloaders (output_dir args) (batch_size args) (num_workers args) w1
                 = (Ok loaders, w2) ->
               main args w =
                 (Raise (ValueError ("Unsupported model: " ++ model args)),
                  add_line (MsgLoadingModel (model args) (num_classes args)) w2)).
    { intros w1 [tl tel] w2 Hd Hc.
      unfold main. unfold bind at 1. unfold print at 1.
      unfold bind at 1. rewrite Hd.
      unfold bind at 1. rewrite Hc.
      unfold bind at 1. now rewrite get_model_unsupported. }
    split; [|exact Hmain].
    destruct (download_data_from_kaggle (Some (kaggle_json args)) (kaggle_dataset args)
                (output_dir args) (add_line (MsgArguments args) w)) as [[[]|ex] w1] eqn:Hd.
    + destruct (create_dataloaders (output_dir args) (batch_size args) (num_workers args) w1)
        as [[loaders|ex] w2] eqn:Hc.
      * rewrite (Hmain w1 loaders w2 eq_refl Hc). eauto.
      * exists ex. unfold main. unfold bind at 1. unfold print at 1.
        unfold bind at 1. rewrite Hd. unfold bind at 1. now rewrite Hc.
    + exists ex. unfold main. unfold bind at 1. unfold print at 1.
      unfold bind at 1. now rewrite Hd.
Qed.

(** C4.  When the output directory exists and is not empty,
    [download_data_from_kaggle] returns normally after printing that the data
    exists, and no [subprocess.run] is among its calls: the download tool is
    not invoked. *)
Theorem present_dataset_is_not_downloaded kp ds od w entries :
  os_path_exists od (w_ext w) = true ->
  os_listdir od (w_ext w) = Ok entries ->
  entries <> [] ->
  exists w',
    download_data_from_kaggle kp ds od w = (Ok tt, w')
    /\ new_lines w w' = [MsgDataExists od]
    /\ forall argv, ~ In (SubprocessRun argv) (new_calls w w').
Proof.
  intros Hex Hls Hne. exists (add_line (MsgDataExists od) w).
  split; [now apply (download_present kp ds od w entries)|].
  split.
  - now apply new_lines_app.
  - intros argv. unfold new_calls. cbn. rewrite drop_all. now intros [].
Qed.

(** C9.  When the output directory exists and is not empty,
    [download_data_from_kaggle] returns before it looks at the credential
    path: a missing path does not raise; and it makes no call at all, so no
    directory is made, no file is copied and no mode is changed; the outside
    world and the saved files are as they were. *)
Theorem present_dataset_skips_credentials kp ds od w entries :
  os_path_exists od (w_ext w) = true ->
  os_listdir od (w_ext w) = Ok entries ->
  entries <> [] ->
  (falsy kp = true -> fst (download_data_from_kaggle kp ds od w) = Ok tt)
  /\ new_calls w (snd (download_data_from_kaggle kp ds od w)) = []
  /\ (forall c, In c (new_calls w (snd (download_data_from_kaggle kp ds od w))) ->
        os_call c = false)
  /\ w_ext (snd (download_data_from_kaggle kp ds od w)) = w_ext w
  /\ w_files (snd (download_data_from_kaggle kp ds od w)) = w_files w.
Proof.
  intros Hex Hls Hne.
  rewrite (download_present kp ds od w entries Hex Hls Hne). cbn [fst snd].
  assert (Hnone : new_calls w (add_line (MsgDataExists od) w) = []).
  { unfold new_calls. cbn. apply drop_all. }
  rewrite Hnone. repeat split. now intros c [].
Qed.

(** ** Further properties of the download *)

Ltac run_download :=
  unfold download_data_from_kaggle, download_steps,
         bind, ask, ask_result, ret, print, raise, sys;
  repeat match goal with
         | |- context [os_path_exists ?p ?e] => destruct (os_path_exists p e) eqn:?
         | |- context [os_listdir ?p ?e] => destruct (os_listdir p e) as [[|? ?]|?] eqn:?
         | |- context [falsy ?p] => destruct (falsy p) eqn:?
         | |- context [os_makedirs_exist_ok ?p ?e] =>
             destruct (os_makedirs_exist_ok p e) as [[?|] ?] eqn:?
         | |- context [shutil_copy ?a ?b ?e] =>
             destruct (shutil_copy a b e) as [[?|] ?] eqn:?
         | |- context [os_chmod ?a ?b ?e] =>
             destruct (os_chmod a b e) as [[?|] ?] eqn:?
         | |- context [subprocess_run_check ?a ?e] =>
             destruct (subprocess_run_check a e) as [[?|] ?] eqn:?
         | _ => progress cbn
         end.

Lemma drop_own_length {A} (l k : list A) :
  drop (length l) (l ++ k) = k.
Proof. apply drop_app_length. Qed.

Ltac new_items :=
  unfold new_calls, new_lines; cbn;
  repeat rewrite <- app_assoc; cbn [app];
  rewrite ?drop_own_length, ?drop_all.

(** X4.  In every run of [download_data_from_kaggle], the calls made are an
    initial part of: make [~/.kaggle], copy the credential file into it,
    set its mode to 0o600, run the kaggle tool; so the tool never runs
    before the credentials are in place and protected, and a step that fails
    is the last one made.  The function returns either without any call
    (data present) or after all four; and "Download completed." is printed
    exactly when it returns after all four. *)
Theorem kaggle_runs_after_credentials kp ds od w :
  new_calls w (snd (download_data_from_kaggle kp ds od w))
    `prefix_of` download_steps kp ds od (w_ext w)
  /\ (fst (download_data_from_kaggle kp ds od w) = Ok tt ->
      new_calls w (snd (download_data_from_kaggle kp ds od w)) = []
      \/ new_calls w (snd (download_data_from_kaggle kp ds od w))
         = download_steps kp ds od (w_ext w))
  /\ (In MsgDownloadCompleted (new_lines w (snd (download_data_from_kaggle kp ds od w)))
      <-> fst (download_data_from_kaggle kp ds od w) = Ok tt
          /\ new_calls w (snd (download_data_from_kaggle kp ds od w))
             = download_steps kp ds od (w_ext w)).
Proof.
  run_download; new_items;
    (split; [eexists; reflexivity|]);
    (split; [intros; first [now left | now right | discriminate]|]);
    (split; [cbn; intros Hin; intuition discriminate
            | intros [Hok Hall]; first [discriminate | cbn; auto]]).
Qed.

(** X5.  With a missing credential path (None or the empty string)
    [download_data_from_kaggle] makes no call at all and leaves the outside
    world and the files as they were, whatever is on the disk and whether it
    returns or raises. *)
Theorem no_credentials_no_calls kp ds od w :
  falsy kp = true ->
  new_calls w (snd (download_data_from_kaggle kp ds od w)) = []
  /\ w_ext (snd (download_data_from_kaggle kp ds od w)) = w_ext w
  /\ w_files (snd (download_data_from_kaggle kp ds od w)) = w_files w.
Proof.
  intros Hkp. run_download; try congruence; new_items; repeat split.
Qed.

(** X6.  When the output directory exists but cannot be listed, the error of
    [os.listdir] is the outcome of [download_data_from_kaggle], and nothing
    has been printed, called or changed. *)
Theorem listing_error_propagates kp ds od w ex :
  os_path_exists od (w_ext w) = true ->
  os_listdir od (w_ext w) = Raise ex ->
  download_data_from_kaggle kp ds od w = (Raise ex, w).
Proof.
  intros Hex Hls.
  unfold download_data_from_kaggle, bind, ask, ask_result.
  now rewrite Hex, Hls.
Qed.

Lemma download_files kp ds od w :
  w_files (snd (download_data_from_kaggle kp ds od w)) = w_files w.
Proof. run_download; reflexivity. Qed.

(** ** Further properties of create_dataloaders *)

Lemma append_cancel_l (a b c : string) : a ++ b = a ++ c -> b = c.
Proof.
  induction a as [|x a IH]; cbn; [auto|].
  intros E. injection E as E. auto.
Qed.

(** X7.  The training and the test data are never read from the same
    directory, whatever the output directory is. *)
Theorem train_and_test_directories_differ (od : string) :
  os_path_join od "train" <> os_path_join od "test".
Proof.
  unfold os_path_join.
  destruct (String.eqb od ""); [now apply String.eqb_neq|].
  assert (Hne : "train" <> "test") by (now apply String.eqb_neq).
  assert (Hne' : "/train" <> "/test") by (now apply String.eqb_neq).
  destruct (ends_with_slash od); intros E.
  - now apply append_cancel_l in E.
  - now apply append_cancel_l in E.
Qed.

(** X8.  [create_dataloaders] changes nothing outside: no call, no file, the
    outside world as it was.  It returns a pair of loaders exactly when both
    image folders can be opened and both loaders can be built, the training
    loader shuffling and the test loader not, both with the given batch size
    and number of workers; and it prints its second line exactly when it
    returns. *)
Theorem create_dataloaders_outcome od bs nw w :
  (w_ext (snd (create_dataloaders od bs nw w)) = w_ext w
   /\ w_calls (snd (create_dataloaders od bs nw w)) = w_calls w
   /\ w_files (snd (create_dataloaders od bs nw w)) = w_files w)
  /\ (forall tl tel,
        fst (create_dataloaders od bs nw w) = Ok (tl, tel) <->
        exists trd ted,
          ImageFolder (os_path_join od "train") (Compose [ToTensor]) (w_ext w) = Ok trd
          /\ ImageFolder (os_path_join od "test") (Compose [ToTensor]) (w_ext w) = Ok ted
          /\ DataLoader trd bs true nw = Ok tl
          /\ DataLoader ted bs false nw = Ok tel)
  /\ new_lines w (snd (create_dataloaders od bs nw w))
     = (if is_ok (fst (create_dataloaders od bs nw w))
        then [MsgCreatingLoaders bs nw; MsgLoadersCreated]
        else [MsgCreatingLoaders bs nw]).
Proof.
  unfold create_dataloaders, bind, print, ask_result, lift_result, ret. cbn.
  destruct (ImageFolder (os_path_join od "train") _ (w_ext w)) as [trd|e1] eqn:E1; cbn.
  2: { split; [auto|]. split; [|new_items; reflexivity].
       intros tl tel. split; [discriminate|]. intros (? & ? & ? & _). discriminate. }
  destruct (ImageFolder (os_path_join od "test") _ (w_ext w)) as [ted|e2] eqn:E2; cbn.
  2: { split; [auto|]. split; [|new_items; reflexivity].
       intros tl tel. split; [discriminate|]. intros (? & ? & _ & ? & _). discriminate. }
  destruct (DataLoader trd bs true nw) as [tl0|e3] eqn:E3; cbn.
  2: { split; [auto|]. split; [|new_items; reflexivity].
       intros tl tel. split; [discriminate|].
       intros (trd' & ted' & Ha & _ & Hb & _). congruence. }
  destruct (DataLoader ted bs false nw) as [tel0|e4] eqn:E4; cbn.
  2: { split; [auto|]. split; [|new_items; reflexivity].
       intros tl tel. split; [discriminate|].
       intros (trd' & ted' & _ & Ha & _ & Hb). congruence. }
  split; [auto|]. split; [|new_items; reflexivity].
  intros tl tel. split.
  - intros E. injection E as <- <-. exists trd, ted. now repeat split.
  - intros (trd' & ted' & Ha & Hb & Hc & Hd). congruence.
Qed.

Lemma create_dataloaders_frame od bs nw w :
  w_calls (snd (create_dataloaders od bs nw w)) = w_calls w
  /\ w_files (snd (create_dataloaders od bs nw w)) = w_files w
  /\ w_ext (snd (create_dataloaders od bs nw w)) = w_ext w.
Proof.
  unfold create_dataloaders, bind, print, ask_result, lift_result, ret. cbn.
  destruct (ImageFolder (os_path_join od "train") _ (w_ext w)); cbn; [|auto].
  destruct (ImageFolder (os_path_join od "test") _ (w_ext w)); cbn; [|auto].
  destruct (DataLoader _ bs true nw); cbn; [|auto].
  destruct (DataLoader _ bs false nw); cbn; auto.
Qed.

(** ** Further properties of the script as a whole *)

(** X9.  When the download raises, or the loaders cannot be made, or the
    model name is not supported, [main] ends with an exception before any
    call on the model: the only calls made are those of the download (to the
    operating system), and no checkpoint was written. *)
Theorem failure_before_training args w :
  (exists e1,
      fst (download_data_from_kaggle (Some (kaggle_json args)) (kaggle_dataset args)
             (output_dir args) (add_line (MsgArguments args) w)) = Raise e1)
  \/ (exists e2,
        fst (create_dataloaders (output_dir args) (batch_size args) (num_workers args)
               (snd (download_data_from_kaggle (Some (kaggle_json args))
                       (kaggle_dataset args) (output_dir args)
                       (add_line (MsgArguments args) w)))) = Raise e2)
  \/ (model args <> "resnet18" /\ model args <> "resnet50") ->
  (exists ex, fst (main args w) = Raise ex)
  /\ w_files (snd (main args w)) = w_files w
  /\ forall c, In c (new_calls w (snd (main args w))) -> os_call c = true.
Proof.
  intros Hfail.
  destruct (download_calls (Some (kaggle_json args)) (kaggle_dataset args)
              (output_dir args) (add_line (MsgArguments args) w)) as (cs & Hcs & Hos).
  pose proof (download_files (Some (kaggle_json args)) (kaggle_dataset args)
                (output_dir args) (add_line (MsgArguments args) w)) as Hdf.
  cbn in Hcs, Hdf.
  destruct (download_data_from_kaggle (Some (kaggle_json args)) (kaggle_dataset args)
              (output_dir args) (add_line (MsgArguments args) w))
    as [[[]|e1] w1] eqn:Hd; cbn [fst snd] in Hcs, Hdf, Hfail.
  2: { assert (Hm : main args w = (Raise e1, w1)).
       { unfold main. unfold bind at 1. unfold print at 1.
         unfold bind at 1. now rewrite Hd. }
       rewrite Hm. cbn [fst snd]. split; [eauto|]. split; [exact Hdf|].
       rewrite (new_calls_app _ _ _ Hcs). now apply List.Forall_forall. }
  destruct (create_dataloaders_frame (output_dir args) (batch_size args)
              (num_workers args) w1) as (Hcc & Hcf & _).
  destruct (create_dataloaders (output_dir args) (batch_size args) (num_workers args) w1)
    as [[[tl tel]|e2] w2] eqn:Hc; cbn [fst snd] in Hcc, Hcf, Hfail.
  2: { assert (Hm : main args w = (Raise e2, w2)).
       { unfold main. unfold bind at 1. unfold print at 1.
         unfold bind at 1. rewrite Hd. unfold bind at 1. now rewrite Hc. }
       rewrite Hm. cbn [fst snd]. split; [eauto|]. split; [congruence|].
       assert (Hcs2 : w_calls w2 = (w_calls w ++ cs)%list) by congruence.
       rewrite (new_calls_app _ _ _ Hcs2). now apply List.Forall_forall. }
  destruct Hfail as [(e1 & He1) | [(e2 & He2) | (H18 & H50)]];
    [discriminate | discriminate |].
  assert (Hm : main args w =
               (Raise (ValueError ("Unsupported model: " ++ model args)),
                add_line (MsgLoadingModel (model args) (num_classes args)) w2)).
  { unfold main. unfold bind at 1. unfold print at 1.
    unfold bind at 1. rewrite Hd. unfold bind at 1. rewrite Hc.
    unfold bind at 1. now rewrite get_model_unsupported. }
  rewrite Hm. cbn [fst snd]. split; [eauto|]. split; [cbn; congruence|].
  assert (Hcs2 : w_calls (add_line (MsgLoadingModel (model args) (num_classes args)) w2)
                 = (w_calls w ++ cs)%list) by (cbn; congruence).
  rewrite (new_calls_app _ _ _ Hcs2). now apply List.Forall_forall.
Qed.

(** X10.  Once the download, the loaders and [get_model] have succeeded, the
    first call [main] makes moves the model [get_model] returned to the
    device, cuda when it is available and the cpu otherwise; every call
    after it is a call of the training loop on that model, on the two
    loaders, on an Adam optimizer over the model and on a ReduceLROnPlateau
    scheduler (mode "min", factor 0.1, patience 3) over that optimizer.
    When [main] returns, the last line it printed is "Training
    completed!"; and whether it returns or raises, no file but
    [best_model.pth] has changed since the loaders were made. *)
Theorem main_trains_on_the_chosen_device args w w1 tl tel w2 m w3 :
  download_data_from_kaggle (Some (kaggle_json args)) (kaggle_dataset args)
    (output_dir args) (add_line (MsgArguments args) w) = (Ok tt, w1) ->
  create_dataloaders (output_dir args) (batch_size args) (num_workers args) w1
    = (Ok (tl, tel), w2) ->
  get_model (model args) (num_classes args) w2 = (Ok m, w3) ->
  let d := if cuda_is_available (w_ext w2) then Cuda else Cpu in
  (exists cs,
      new_calls w2 (snd (main args w)) = ModuleTo m d :: cs
      /\ Forall (training_call m tl tel CrossEntropyLoss (Adam m)
                   (Some (ReduceLROnPlateau (Adam m) "min" (1 # 10) 3))) cs)
  /\ (fst (main args w) = Ok tt ->
      last (w_stdout (snd (main args w))) = Some MsgTrainingCompleted)
  /\ (forall p, p <> "best_model.pth" ->
        w_files (snd (main args w)) !! p = w_files w2 !! p).
Proof.
  intros Hd Hc Hm d.
  pose proof (get_model_frame (model args) (num_classes args) w2) as Hframe.
  rewrite Hm in Hframe. cbn [snd] in Hframe. destruct Hframe as (Hext & Hcalls & Hfiles).
  rewrite main_steps, Hd, Hc, Hm. cbn zeta. rewrite Hext. fold d.
  set (w4 := add_line (MsgDevice d)
               (add_call (ModuleTo m d) (set_ext (module_to m d (w_ext w2)) w3))).
  set (sch := Some (ReduceLROnPlateau (Adam m) "min" (1 # 10) 3)).
  split; [|split].
  - destruct (run_calls_allowed m tl tel CrossEntropyLoss (Adam m) sch d (num_epochs args) w4)
      as (cs & Hcs & Hall).
    exists cs. split; [|exact Hall].
    apply new_calls_app. rewrite Hcs. subst w4. cbn. rewrite Hcalls.
    now rewrite <- app_assoc.
  - intros Hok.
    destruct (run_after m tl tel CrossEntropyLoss (Adam m) sch d (num_epochs args) w4)
      as [(locals & wk & _ & Hrun) | (ex & wk & _ & Hrun)];
      rewrite Hrun in Hok |- *; [|discriminate].
    cbn. apply last_snoc.
  - intros p Hp.
    rewrite (run_files_frame m tl tel CrossEntropyLoss (Adam m) sch d (num_epochs args) w4 p Hp).
    subst w4. cbn. now rewrite Hfiles.
Qed.

End Properties.

(** * Properties of the package check *)

Section ImportProperties.
Context `{Python}.

Ltac run_install :=
  unfold install_and_import, first_import_fails, try_finally, try_except_import,
         pbind, import_, pret, pprint, run_check_call, set_global;
  cbn;
  repeat match goal with
         | |- context [builtin_import ?p ?e] =>
             destruct (builtin_import p e) as [[?|?] ?] eqn:?; cbn
         | |- context [check_call ?a ?e] =>
             destruct (check_call a e) as [[?|] ?] eqn:?; cbn
         | |- context [is_import_error ?x] =>
             destruct (is_import_error x) eqn:?; cbn
         end.

Lemma install_runs_exact (package : string) (s : pystate) :
  py_runs (snd (install_and_import package s))
    = (py_runs s ++ if first_import_fails package s
                    then [pip_install package] else [])%list.
Proof. run_install; rewrite ?app_nil_r; reflexivity. Qed.

(** X11.  pip is run by [install_and_import] at most once, with the command
    [sys.executable -m pip install package], and only after the first import
    of the package raised [ImportError]; the line "Installing ..." is printed
    in exactly that case.  A package that imports at once, or whose import
    fails in another way, is never installed. *)
Theorem pip_runs_only_after_import_error (package : string) (s : pystate) :
  py_runs (snd (install_and_import package s))
    = (py_runs s ++ if first_import_fails package s
                    then [pip_install package] else [])%list
  /\ py_stdout (snd (install_and_import package s))
     = (py_stdout s ++ if first_import_fails package s
                       then [("Installing " ++ package ++ "...")%string] else [])%list.
Proof.
  run_install; rewrite ?app_nil_r; split; reflexivity.
Qed.

(** X12.  After [install_and_import package], either [globals()[package]] is
    bound to a module that an import of the package returned, and no other
    global changed; or [globals()] is as it was and the call raised an
    exception that an import of the package raised.  So a call that returns
    has bound the name, and a failure of pip alone never leaves it unbound. *)
Theorem name_bound_or_import_failed (package : string) (s : pystate) :
  (exists m e,
      fst (builtin_import package e) = Ok m
      /\ py_globals (snd (install_and_import package s))
         = <[package := m]> (py_globals s))
  \/ (py_globals (snd (install_and_import package s)) = py_globals s
      /\ exists ex e,
           fst (install_and_import package s) = Raise ex
           /\ fst (builtin_import package e) = Raise ex).
Proof.
  run_install;
    first
      [ left; eexists; eexists; split; [|reflexivity];
        match goal with
        | E : builtin_import package ?e = (Ok ?m, _) |- fst (builtin_import package _) = Ok ?m =>
            now rewrite E
        end
      | right; split; [reflexivity|]; eexists; eexists; split; [reflexivity|];
        match goal with
        | E : builtin_import package ?e = (Raise ?x, _)
          |- fst (builtin_import package _) = Raise ?x => now rewrite E
        end ].
Qed.

(** X13.  For a package that no import can load, [install_and_import] raises
    the exception of the import, also when pip itself failed with another
    one, and [globals()] is unchanged. *)
Theorem unimportable_package_raises_import_error (package : string) (s : pystate) ex :
  (forall e, fst (builtin_import package e) = Raise ex) ->
  fst (install_and_import package s) = Raise ex
  /\ py_globals (snd (install_and_import package s)) = py_globals s.
Proof.
  intros Hno. run_install;
    repeat match goal with
           | E : builtin_import package ?e = (_, _) |- _ =>
               let Hn := fresh in
               pose proof (Hno e) as Hn; rewrite E in Hn; cbn in Hn; clear E
           end;
    try discriminate; split; congruence.
Qed.

(** *** The loop over the required packages *)

Lemma before_first_dot_has_no_dot (s : string) :
  contains_dot (before_first_dot s) = false.
Proof.
  induction s as [|c s IH]; [reflexivity|].
  cbn. destruct (Ascii.eqb c ".") eqn:E; [reflexivity|].
  cbn. now rewrite E.
Qed.

Lemma before_first_dot_then_dot (s : string) :
  contains_dot s = true ->
  exists rest, s = before_first_dot s ++ "." ++ rest.
Proof.
  induction s as [|c s IH]; [discriminate|].
  cbn. destruct (Ascii.eqb c ".") eqn:E.
  - intros _. apply Ascii.eqb_eq in E. subst c. now exists s.
  - cbn. intros Hdot. destruct (IH Hdot) as (rest & Hrest).
    exists rest. change (String c s = String c (before_first_dot s ++ "." ++ rest)).
    now f_equal.
Qed.

(** The name [check_package] hands to [install_and_import] is the top-level
    package of the entry. *)
Lemma check_package_top_level (package : string) :
  top_level_of package (if contains_dot package then before_first_dot package else package).
Proof.
  unfold top_level_of. destruct (contains_dot package) eqn:Hdot.
  - split; [apply before_first_dot_has_no_dot|].
    right. now apply before_first_dot_then_dot.
  - split; [exact Hdot | now left].
Qed.

Lemma pip_runs_cases (package : string) (s : pystate) :
  py_runs (snd (install_and_import package s)) = py_runs s
  \/ py_runs (snd (install_and_import package s)) = (py_runs s ++ [pip_install package])%list.
Proof. run_install; auto. Qed.

Lemma install_runs (package : string) (s : pystate) :
  exists rs,
    py_runs (snd (install_and_import package s)) = (py_runs s ++ rs)%list
    /\ Forall (fun argv => argv = pip_install package) rs.
Proof.
  destruct (pip_runs_cases package s) as [-> | ->].
  - exists []. now rewrite app_nil_r.
  - exists [pip_install package]. split; [reflexivity | now repeat constructor].
Qed.

Lemma for_each_runs {A} (Q : list string -> Prop) (xs : list A) (body : A -> P unit) :
  (forall x s, In x xs ->
     exists rs, py_runs (snd (body x s)) = (py_runs s ++ rs)%list /\ Forall Q rs) ->
  forall s,
    exists rs, py_runs (snd (for_each xs body s)) = (py_runs s ++ rs)%list /\ Forall Q rs.
Proof.
  induction xs as [|x xs IH]; intros Hbody s.
  - exists []. cbn. now rewrite app_nil_r.
  - cbn. unfold pbind.
    destruct (Hbody x s (or_introl eq_refl)) as (rs & Hrs & Hall).
    destruct (body x s) as [[[]|ex] s1]; cbn [snd] in Hrs.
    + destruct (IH (fun y s' Hy => Hbody y s' (or_intror Hy)) s1) as (rs' & Hrs' & Hall').
      exists (rs ++ rs')%list. split.
      * now rewrite Hrs', Hrs, app_assoc.
      * apply Forall_app. now split.
    + exists rs. now split.
Qed.

(** X14.  For an entry of the list, [check_package] works on its top-level
    package: the entry itself when it has no dot, and otherwise the part
    before its first dot.  pip is run for that name, once, exactly when its
    first import raises [ImportError], and never for a dotted name.  Over
    [required_packages] every pip command installs the top-level package of
    an entry of the list, so the only names pip can be asked for are
    argparse, kaggle, os, subprocess, torch and torchvision. *)
Theorem pip_installs_top_level_packages_only :
  (forall package s,
      exists top,
        top_level_of package top
        /\ py_runs (snd (check_package package s))
           = (py_runs s ++ if first_import_fails top s then [pip_install top] else [])%list)
  /\ (forall s,
        exists rs,
          py_runs (snd (check_required_packages s)) = (py_runs s ++ rs)%list
          /\ Forall (fun argv =>
                       exists package top,
                         In package required_packages
                         /\ top_level_of package top
                         /\ In top ["argparse"; "kaggle"; "os"; "subprocess"; "torch";
                                    "torchvision"]
                         /\ argv = pip_install top) rs).
Proof.
  split.
  - intros package s.
    exists (if contains_dot package then before_first_dot package else package).
    split; [apply check_package_top_level|].
    unfold check_package.
    apply (install_runs_exact _ s).
  - intros s. unfold check_required_packages.
    apply for_each_runs. intros package s' Hin. unfold check_package.
    destruct (install_runs
                (if contains_dot package then before_first_dot package else package) s')
      as (rs & Hrs & Hall).
    exists rs. split; [exact Hrs|].
    revert Hall. apply List.Forall_impl. intros argv ->.
    exists package. eexists.
    split; [exact Hin|]. split; [apply check_package_top_level|].
    split; [|reflexivity].
    cbn in Hin.
    repeat (destruct Hin as [<- | Hin]; [cbn; tauto|]). contradiction.
Qed.

End ImportProperties.

(** * Concrete runs *)

Section Runs.
Import Toy.

#[local] Abbreviation toy_run :=
  (train_and_test_model resnet train_batches test_batches CrossEntropyLoss
                        (Adam resnet) None Cpu 4 (world0 ∅)).
#[local] Abbreviation after :=
  (fun k => after_epochs resnet train_batches test_batches CrossEntropyLoss
                         (Adam resnet) None Cpu 4 k (world0 ∅)).
#[local] Abbreviation accuracy :=
  (accuracy_of resnet train_batches test_batches CrossEntropyLoss
               (Adam resnet) None Cpu 4 (world0 ∅)).
#[local] Abbreviation written :=
  (checkpoint_written resnet train_batches test_batches CrossEntropyLoss
                      (Adam resnet) None Cpu 4 (world0 ∅)).
#[local] Abbreviation parameters :=
  (parameters_of resnet train_batches test_batches CrossEntropyLoss
                 (Adam resnet) None Cpu 4 (world0 ∅)).

Example toy_run_4 :
  fst (run 4) = Ok tt
  /\ w_stdout (snd (run 4)) =
       [MsgTraining 4;
        MsgEpoch 1 4 (0 # 1) (3 # 3) (5 # 2) (1 # 6); MsgModelSaved 1 (1 # 6);
        MsgEpoch 2 4 (3 # 1) (0 # 3) (4 # 2) (2 # 6); MsgModelSaved 2 (2 # 6);
        MsgEpoch 3 4 (3 # 1) (0 # 3) (3 # 2) (3 # 6); MsgModelSaved 3 (3 # 6);
        MsgEpoch 4 4 (0 # 1) (3 # 3) (5 # 2) (1 # 6);
        MsgTrainingCompleted]
  /\ w_files (snd (run 4)) !! "best_model.pth" = Some 3.
Proof. vm_compute. repeat split. Qed.

Example toy_download :
  w_calls (snd (download_data_from_kaggle (Some "kaggle.json") "mainakml/vibeid-a-4-1"
                                          "data" (world0 ∅))) =
    [OsMakedirs "/home/user/.kaggle";
     ShutilCopy "kaggle.json" "/home/user/.kaggle/kaggle.json";
     OsChmod "/home/user/.kaggle/kaggle.json" 384;
     SubprocessRun ["kaggle"; "datasets"; "download"; "-d"; "mainakml/vibeid-a-4-1";
                    "-p"; "data"; "--unzip"]].
Proof. reflexivity. Qed.

Example toy_main :
  fst (main (args "kaggle.json" "resnet18") (world0 disk_with_data)) = Ok tt
  /\ w_files (snd (main (args "kaggle.json" "resnet18") (world0 disk_with_data)))
       !! "best_model.pth" = Some 12.
Proof. vm_compute. split; reflexivity. Qed.

Lemma ok_eta (r : result frame * world) :
  is_ok (fst r) = true -> r = (Ok (frame_of (fst r)), snd r).
Proof. destruct r as [[locals|ex] w]; [reflexivity | discriminate]. Qed.



(** C1: the claim fails on [get_model "resnet18" 15], which returns a network
    built with [weights=None]. *)
Lemma get_model_resnet18_is_not_pretrained :
  exists m,
    fst (get_model "resnet18" 15%Z (world0 ∅)) = Ok m
    /\ m_weights m = None
    /\ is_pretrained m = false.
Proof. eexists. repeat split. Qed.

Lemma get_model_builds_network_without_pretrained_weights_witness :
  (exists m,
      get_model "resnet50" 15%Z (world0 ∅) =
        (Ok m, add_line MsgModelLoaded (add_line (MsgLoadingModel "resnet50" 15%Z) (world0 ∅)))
      /\ m_arch m = ResNet50
      /\ m_weights m = None
      /\ m_requires_grad m = true
      /\ m_fc m = Sequential [Linear 2048 15])
  /\ get_model "resnet18" (-1)%Z (world0 ∅) =
       (Raise (LibraryError "RuntimeError"),
        add_line (MsgLoadingModel "resnet18" (-1)%Z) (world0 ∅))
  /\ (exists rest,
        calls_of resnet train_batches test_batches CrossEntropyLoss (Adam resnet) None Cpu
                 4 (world0 ∅) 0
        = ([ModuleTrain resnet;
            LoaderIter train_batches
              (train_pass_batches resnet train_batches (w_ext (snd (after 0))))]
           ++ concat (map step_calls
                          (train_pass_steps resnet train_batches CrossEntropyLoss
                                            (Adam resnet) Cpu (w_ext (snd (after 0)))))
           ++ rest)%list)
  /\ exists m train_loader test_loader d w3,
       built_by_get_model "resnet18" 15%Z m
       /\ main (args "kaggle.json" "resnet18") (world0 disk_with_data) =
          train_and_test_model m train_loader test_loader CrossEntropyLoss (Adam m)
            (Some (ReduceLROnPlateau (Adam m) "min" (1 # 10) 3)) d 3 w3.
Proof.
  destruct get_model_builds_network_without_pretrained_weights
    as (Hbuild & _ & Htrain & _ & Hmain & _).
  split; [|split; [|split]].
  - exact (Hbuild "resnet50" 15%Z (world0 ∅) (or_intror eq_refl)).
  - exact (Hbuild "resnet18" (-1)%Z (world0 ∅) (or_introl eq_refl)).
  - refine (proj1 (proj2 (proj2
              (Htrain resnet train_batches test_batches CrossEntropyLoss (Adam resnet)
                      None Cpu 4%Z (world0 ∅) 0
                      (frame_of (fst (after 1))) (snd (after 1)) _)))).
    apply ok_eta. vm_compute. reflexivity.
  - apply (Hmain (args "kaggle.json" "resnet18") (world0 disk_with_data)).
    vm_compute. reflexivity.
Defined.

(** C3: the claim fails on a call with no credential path when the data is
    already there: the call returns. *)
Lemma download_without_credentials_returns :
  falsy None = true
  /\ download_data_from_kaggle None "mainakml/vibeid-a-4-1" "data" (world0 disk_with_data) =
       (Ok tt, add_line (MsgDataExists "data") (world0 disk_with_data)).
Proof. split; reflexivity. Qed.

Lemma misconfiguration_raises_value_error_witness :
  download_data_from_kaggle (Some "") "mainakml/vibeid-a-4-1" "data" (world0 ∅) =
    (Raise (ValueError "The path to kaggle.json must be provided."),
     add_line (MsgDownloading "mainakml/vibeid-a-4-1" "data") (world0 ∅))
  /\ get_model "vgg16" 15%Z (world0 ∅) =
       (Raise (ValueError "Unsupported model: vgg16"),
        add_line (MsgLoadingModel "vgg16" 15%Z) (world0 ∅))
  /\ main (args "" "resnet18") (world0 ∅) =
       (Raise (ValueError "The path to kaggle.json must be provided."),
        add_line (MsgDownloading "mainakml/vibeid-a-4-1" "data")
                 (add_line (MsgArguments (args "" "resnet18")) (world0 ∅)))
  /\ exists ex, fst (main (args "kaggle.json" "vgg16") (world0 disk_with_data)) = Raise ex.
Proof.
  destruct misconfiguration_raises_value_error as (Hdownload & Hmodel & Hmain & Hmain').
  split; [|split; [|split]].
  - apply Hdownload; [reflexivity | left; reflexivity].
  - apply (Hmodel "vgg16"); discriminate.
  - apply Hmain; [reflexivity | left; reflexivity].
  - apply (Hmain' (args "kaggle.json" "vgg16")); discriminate.
Defined.

Lemma present_dataset_is_not_downloaded_witness :
  exists w',
    download_data_from_kaggle (Some "kaggle.json") "mainakml/vibeid-a-4-1" "data"
                              (world0 disk_with_data) = (Ok tt, w')
    /\ new_lines (world0 disk_with_data) w' = [MsgDataExists "data"]
    /\ forall argv, ~ In (SubprocessRun argv) (new_calls (world0 disk_with_data) w').
Proof.
  apply (present_dataset_is_not_downloaded (Some "kaggle.json") "mainakml/vibeid-a-4-1"
           "data" (world0 disk_with_data) ["train"; "test"]).
  - reflexivity.
  - reflexivity.
  - discriminate.
Defined.

Lemma present_dataset_skips_credentials_witness :
  fst (download_data_from_kaggle None "mainakml/vibeid-a-4-1" "data"
                                 (world0 disk_with_data)) = Ok tt
  /\ new_calls (world0 disk_with_data)
               (snd (download_data_from_kaggle None "mainakml/vibeid-a-4-1" "data"
                                               (world0 disk_with_data))) = [].
Proof.
  destruct (present_dataset_skips_credentials None "mainakml/vibeid-a-4-1" "data"
              (world0 disk_with_data) ["train"; "test"])
    as (Hok & Hnone & _).
  - reflexivity.
  - reflexivity.
  - discriminate.
  - split; [apply Hok; reflexivity | exact Hnone].
Defined.

Lemma checkpoint_written_iff_strict_improvement_witness :
  after 4 = (Ok (frame_of (fst (after 4))), snd (after 4))
  /\ (forall e, e < 4 ->
        exists a, accuracy e = Some a
          /\ (written e <->
                (forall j b, j < e -> accuracy j = Some b -> (b < a)%Q)
                /\ (e = 0 -> (0 < a)%Q)))
  /\ ((exists e, e < 4 /\ written e) ->
      exists j a, j < 4
        /\ written j
        /\ accuracy j = Some a
        /\ w_files (snd (after 4)) !! "best_model.pth" = Some (parameters j)
        /\ forall i b, i < 4 -> accuracy i = Some b -> (b <= a)%Q).
Proof.
  assert (Hrun : after 4 = (Ok (frame_of (fst (after 4))), snd (after 4)))
    by (apply ok_eta; vm_compute; reflexivity).
  split; [exact Hrun|].
  exact (checkpoint_written_iff_strict_improvement
           resnet train_batches test_batches CrossEntropyLoss (Adam resnet) None Cpu
           4 4 (world0 ∅) _ _ Hrun).
Defined.


Lemma checkpoint_path_is_fixed_witness :
  written 0 /\ w_files (snd (after 1)) !! "best_model.pth" = Some (parameters 0).
Proof.
  apply (proj2 (proj2 (proj2
           (checkpoint_path_is_fixed
              resnet train_batches test_batches CrossEntropyLoss (Adam resnet) None Cpu
              4 (world0 ∅))))
         0 (frame_of (fst (after 0))) (snd (after 0))
         (frame_of (fst (after 1))) (snd (after 1)) (1 # 6)%Q).
  - apply ok_eta. vm_compute; reflexivity.
  - apply ok_eta. vm_compute; reflexivity.
  - vm_compute; reflexivity.
  - vm_compute; reflexivity.
Defined.

(** C7: the claim fails on a run with credentials and a supported model
    name that does not complete.  With a test loader that has no batch
    [train_and_test_model] raises [ZeroDivisionError] in its first epoch,
    after the opening line and before any metrics line; and on a disk whose
    data directory has no [train] folder [main] ends with the error of
    [ImageFolder] before the training starts. *)
Lemma run_without_misconfiguration_raises :
  fst (train_and_test_model resnet train_batches no_batches CrossEntropyLoss
                            (Adam resnet) None Cpu 4 (world0 ∅)) = Raise ZeroDivisionError
  /\ w_stdout (snd (train_and_test_model resnet train_batches no_batches CrossEntropyLoss
                                         (Adam resnet) None Cpu 4 (world0 ∅)))
     = [MsgTraining 4]
  /\ fst (main (args "kaggle.json" "resnet18") (world0 disk_without_folders))
     = Raise (LibraryError "FileNotFoundError")
  /\ w_stdout (snd (main (args "kaggle.json" "resnet18") (world0 disk_without_folders)))
     = [MsgArguments (args "kaggle.json" "resnet18");
        MsgDataExists "data";
        MsgCreatingLoaders 16 2].
Proof. vm_compute. repeat split. Qed.

Lemma one_metrics_line_per_epoch_witness :
  fst toy_run = Ok tt
  /\ exists lines : list (list message),
       length lines = 4
       /\ new_lines (world0 ∅) (snd toy_run)
          = ([MsgTraining 4] ++ concat lines ++ [MsgTrainingCompleted])%list
       /\ forall e ls, lines !! e = Some ls ->
            accuracy e
            = Some (epoch_test_accuracy resnet train_batches test_batches CrossEntropyLoss
                                        (Adam resnet) Cpu (w_ext (snd (after e)))).
Proof.
  assert (Hok : fst toy_run = Ok tt) by (vm_compute; reflexivity).
  split; [exact Hok|].
  destruct (one_metrics_line_per_epoch
              resnet train_batches test_batches CrossEntropyLoss (Adam resnet) None Cpu
              4 (world0 ∅) Hok) as (lines & Hlen & Hout & Hlines).
  exists lines. split; [exact Hlen|]. split; [exact Hout|].
  intros e ls Hlook. exact (proj1 (Hlines e ls Hlook)).
Defined.


Lemma no_checkpoint_when_accuracy_stays_zero_witness :
  w_files (snd (train_and_test_model resnet train_batches hopeless_batches CrossEntropyLoss
                                     (Adam resnet) None Cpu 2 (world0 ∅))) = ∅
  /\ forall sd p,
       ~ In (TorchSave sd p)
            (new_calls (world0 ∅)
               (snd (train_and_test_model resnet train_batches hopeless_batches
                       CrossEntropyLoss (Adam resnet) None Cpu 2 (world0 ∅)))).
Proof.
  apply (no_checkpoint_when_accuracy_stays_zero
           resnet train_batches hopeless_batches CrossEntropyLoss (Adam resnet) None Cpu
           2 (world0 ∅)).
  left. intros e a He.
  destruct e as [|[|e]]; [| |lia]; vm_compute; intros Ha; injection Ha as <-; reflexivity.
Defined.

End Runs.

(** * Concrete runs for the further properties *)

Section MoreRuns.
Import Toy.

#[local] Abbreviation plateau :=
  (ReduceLROnPlateau (Adam resnet) "min" (1 # 10) 3).
#[local] Abbreviation after_scheduled :=
  (fun k => after_epochs resnet train_batches test_batches CrossEntropyLoss
                         (Adam resnet) (Some plateau) Cpu 4 k (world0 ∅)).
#[local] Abbreviation toy_download :=
  (download_data_from_kaggle (Some "kaggle.json") "mainakml/vibeid-a-4-1" "data"
     (add_line (MsgArguments (args "kaggle.json" "resnet18")) (world0 disk_with_data))).
#[local] Abbreviation toy_loaders :=
  (create_dataloaders "data" 16 2 (snd toy_download)).
#[local] Abbreviation toy_main :=
  (main (args "kaggle.json" "resnet18") (world0 disk_with_data)).
#[local] Abbreviation one_per_sample :=
  ([([0], [0]); ([1], [1]); ([2], [2]); ([3], [0])] : @loader toy).

Lemma ok_unit_eta (r : result unit * world) :
  is_ok (fst r) = true -> r = (Ok tt, snd r).
Proof. destruct r as [[[]|ex] w]; [reflexivity | discriminate]. Qed.

Lemma ok_value_eta {A} (r : result A * world) (a : A) :
  fst r = Ok a -> r = (Ok a, snd r).
Proof. destruct r as [x w]. cbn. now intros ->. Qed.

Lemma one_per_sample_nonempty (d : device) : nonempty d one_per_sample.
Proof. split; [cbn; lia | intros e; cbn; lia]. Qed.

Lemma scheduler_steps_once_per_epoch_witness :
  exists train_loss train_acc test_loss test_acc,
    hd_error (lines_of resnet train_batches test_batches CrossEntropyLoss (Adam resnet)
                       (Some plateau) Cpu 4 (world0 ∅) 0)
      = Some (MsgEpoch (Z.of_nat 0 + 1) 4 train_loss train_acc test_loss test_acc)
    /\ List.filter is_scheduler_step
         (calls_of resnet train_batches test_batches CrossEntropyLoss (Adam resnet)
                   (Some plateau) Cpu 4 (world0 ∅) 0)
       = [SchedulerStep plateau test_loss].
Proof.
  apply (scheduler_steps_once_per_epoch
           resnet train_batches test_batches CrossEntropyLoss (Adam resnet)
           (Some plateau) Cpu 4 0 (world0 ∅)
           (frame_of (fst (after_scheduled 1))) (snd (after_scheduled 1))).
  apply ok_eta. vm_compute. reflexivity.
Defined.

Lemma best_accuracy_is_running_maximum_witness :
  (forall j b, j < 4 ->
     accuracy_of resnet train_batches test_batches CrossEntropyLoss (Adam resnet)
                 (Some plateau) Cpu 4 (world0 ∅) j = Some b ->
     Qle b (best_accuracy (frame_of (fst (after_scheduled 4)))))
  /\ (best_accuracy (frame_of (fst (after_scheduled 4))) = 0%Q
      \/ exists j, j < 4
           /\ accuracy_of resnet train_batches test_batches CrossEntropyLoss (Adam resnet)
                          (Some plateau) Cpu 4 (world0 ∅) j
              = Some (best_accuracy (frame_of (fst (after_scheduled 4)))))
  /\ (forall locals' w',
        after_scheduled 5 = (Ok locals', w') ->
        Qle (best_accuracy (frame_of (fst (after_scheduled 4)))) (best_accuracy locals')).
Proof.
  apply (best_accuracy_is_running_maximum
           resnet train_batches test_batches CrossEntropyLoss (Adam resnet)
           (Some plateau) Cpu 4 4 (world0 ∅)
           (frame_of (fst (after_scheduled 4))) (snd (after_scheduled 4))).
  apply ok_eta. vm_compute. reflexivity.
Defined.

Lemma failing_epoch_prints_and_saves_nothing_witness :
  w_stdout (snd (epoch_body resnet train_batches no_batches CrossEntropyLoss (Adam resnet)
                            None Cpu 4 0 (Frame 0%Q None) (world0 ∅))) = []
  /\ w_files (snd (epoch_body resnet train_batches no_batches CrossEntropyLoss (Adam resnet)
                              None Cpu 4 0 (Frame 0%Q None) (world0 ∅))) = ∅.
Proof.
  destruct (failing_epoch_prints_and_saves_nothing
              resnet train_batches no_batches CrossEntropyLoss (Adam resnet) None Cpu 4
              0%Z (Frame 0%Q None) (world0 ∅))
    as (Hout & Hfiles & _).
  - vm_compute. reflexivity.
  - split; [exact Hout | exact Hfiles].
Defined.

Lemma no_credentials_no_calls_witness :
  new_calls (world0 ∅)
            (snd (download_data_from_kaggle (Some "") "mainakml/vibeid-a-4-1" "data"
                                            (world0 ∅))) = []
  /\ w_ext (snd (download_data_from_kaggle (Some "") "mainakml/vibeid-a-4-1" "data"
                                           (world0 ∅))) = w_ext (world0 ∅)
  /\ w_files (snd (download_data_from_kaggle (Some "") "mainakml/vibeid-a-4-1" "data"
                                             (world0 ∅))) = w_files (world0 ∅).
Proof.
  apply (no_credentials_no_calls (Some "") "mainakml/vibeid-a-4-1" "data" (world0 ∅)).
  reflexivity.
Defined.

Lemma failure_before_training_witness :
  (exists ex, fst (main (args "kaggle.json" "vgg16") (world0 disk_with_data)) = Raise ex)
  /\ w_files (snd (main (args "kaggle.json" "vgg16") (world0 disk_with_data))) = ∅
  /\ forall c,
       In c (new_calls (world0 disk_with_data)
                       (snd (main (args "kaggle.json" "vgg16") (world0 disk_with_data)))) ->
       os_call c = true.
Proof.
  apply (failure_before_training (args "kaggle.json" "vgg16") (world0 disk_with_data)).
  right; right. split; discriminate.
Defined.

Lemma main_trains_on_the_chosen_device_witness :
  (exists cs,
      new_calls (snd toy_loaders) (snd toy_main)
      = ModuleTo (Module_ ResNet18 None true (Sequential [Linear 512 15])) Cpu :: cs)
  /\ last (w_stdout (snd toy_main)) = Some MsgTrainingCompleted.
Proof.
  destruct (main_trains_on_the_chosen_device
              (args "kaggle.json" "resnet18") (world0 disk_with_data)
              (snd toy_download) one_per_sample one_per_sample (snd toy_loaders)
              (Module_ ResNet18 None true (Sequential [Linear 512 15]))
              (snd (get_model "resnet18" 15%Z (snd toy_loaders))))
    as ((cs & Hcs & _) & Hlast & _).
  - apply ok_unit_eta. vm_compute. reflexivity.
  - apply ok_value_eta. vm_compute. reflexivity.
  - apply ok_value_eta. vm_compute. reflexivity.
  - split; [exists cs; exact Hcs|].
    apply Hlast. vm_compute. reflexivity.
Defined.

Lemma training_completed_iff_returns_witness :
  hd_error (new_lines (world0 ∅)
              (snd (train_and_test_model resnet train_batches no_batches CrossEntropyLoss
                      (Adam resnet) None Cpu 4 (world0 ∅)))) = Some (MsgTraining 4)
  /\ ~ In MsgTrainingCompleted
          (new_lines (world0 ∅)
             (snd (train_and_test_model resnet train_batches no_batches CrossEntropyLoss
                     (Adam resnet) None Cpu 4 (world0 ∅)))).
Proof.
  destruct (training_completed_iff_returns
              resnet train_batches no_batches CrossEntropyLoss (Adam resnet) None Cpu 4
              (world0 ∅)) as (Hfirst & Hlast).
  split; [exact Hfirst|].
  intros Hin. apply Hlast in Hin. vm_compute in Hin. discriminate.
Defined.

Lemma kaggle_runs_after_credentials_witness :
  fst (download_data_from_kaggle (Some "kaggle.json") "mainakml/vibeid-a-4-1" "data"
                                 (world0 ∅)) = Ok tt
  /\ (new_calls (world0 ∅)
                (snd (download_data_from_kaggle (Some "kaggle.json")
                        "mainakml/vibeid-a-4-1" "data" (world0 ∅))) = []
      \/ new_calls (world0 ∅)
                   (snd (download_data_from_kaggle (Some "kaggle.json")
                           "mainakml/vibeid-a-4-1" "data" (world0 ∅)))
         = download_steps (Some "kaggle.json") "mainakml/vibeid-a-4-1" "data"
                          (w_ext (world0 ∅))).
Proof.
  assert (Hok : fst (download_data_from_kaggle (Some "kaggle.json")
                       "mainakml/vibeid-a-4-1" "data" (world0 ∅)) = Ok tt)
    by (vm_compute; reflexivity).
  split; [exact Hok|].
  exact (proj1 (proj2 (kaggle_runs_after_credentials (Some "kaggle.json")
                         "mainakml/vibeid-a-4-1" "data" (world0 ∅))) Hok).
Defined.

Lemma train_and_test_directories_differ_witness :
  os_path_join "data" "train" <> os_path_join "data" "test".
Proof. exact (train_and_test_directories_differ "data"). Defined.

Lemma create_dataloaders_outcome_witness :
  fst (create_dataloaders "data" 16 2 (world0 disk_with_data))
    = Ok (one_per_sample, one_per_sample)
  /\ new_lines (world0 disk_with_data)
               (snd (create_dataloaders "data" 16 2 (world0 disk_with_data)))
     = [MsgCreatingLoaders 16 2; MsgLoadersCreated].
Proof.
  destruct (create_dataloaders_outcome "data" 16 2 (world0 disk_with_data))
    as (_ & Hiff & Hlines).
  assert (Hok : fst (create_dataloaders "data" 16 2 (world0 disk_with_data))
                = Ok (one_per_sample, one_per_sample)).
  { apply Hiff. exists [(0, 0); (1, 1); (2, 2); (3, 0)], [(0, 0); (1, 1); (2, 2); (3, 0)].
    repeat split. }
  split; [exact Hok|].
  rewrite Hlines, Hok. reflexivity.
Defined.

End MoreRuns.

Section UnreadableRuns.
Import ToyUnreadable.

Lemma listing_error_propagates_witness :
  download_data_from_kaggle (Some "kaggle.json") "mainakml/vibeid-a-4-1" "data" world0
    = (Raise (LibraryError "PermissionError"), world0).
Proof.
  apply listing_error_propagates; reflexivity.
Defined.

End UnreadableRuns.

Section PythonRuns.
Import ToyPython.

Example toy_install_missing_package :
  fst (install_and_import "kaggle" (start ["os"] [])) = Ok tt
  /\ py_stdout (snd (install_and_import "kaggle" (start ["os"] []))) = ["Installing kaggle..."]
  /\ py_runs (snd (install_and_import "kaggle" (start ["os"] [])))
     = [["/usr/bin/python3"; "-m"; "pip"; "install"; "kaggle"]]
  /\ py_globals (snd (install_and_import "kaggle" (start ["os"] []))) !! "kaggle"
     = Some "kaggle".
Proof. vm_compute. repeat split. Qed.

Example toy_install_unavailable_package :
  fst (install_and_import "kaggle" (start ["os"] ["kaggle"]))
    = Raise (LibraryError "ModuleNotFoundError")
  /\ py_runs (snd (install_and_import "kaggle" (start ["os"] ["kaggle"])))
     = [["/usr/bin/python3"; "-m"; "pip"; "install"; "kaggle"]].
Proof. vm_compute. repeat split. Qed.

Lemma unimportable_package_raises_import_error_witness :
  fst (install_and_import "broken" (start ["os"] [])) = Raise (LibraryError "ImportError")
  /\ py_globals (snd (install_and_import "broken" (start ["os"] []))) = ∅.
Proof.
  apply (unimportable_package_raises_import_error "broken" (start ["os"] [])
           (LibraryError "ImportError")).
  intros e. reflexivity.
Defined.

Lemma pip_runs_only_after_import_error_witness :
  py_runs (snd (install_and_import "kaggle" (start ["os"] [])))
    = [pip_install "kaggle"]
  /\ py_stdout (snd (install_and_import "os" (start ["os"] []))) = [].
Proof.
  split.
  - exact (proj1 (pip_runs_only_after_import_error "kaggle" (start ["os"] []))).
  - exact (proj2 (pip_runs_only_after_import_error "os" (start ["os"] []))).
Defined.

Lemma name_bound_or_import_failed_witness :
  (exists m e,
      fst (builtin_import "kaggle" e) = Ok m
      /\ py_globals (snd (install_and_import "kaggle" (start ["os"] [])))
         = <["kaggle" := m]> (py_globals (start ["os"] [])))
  \/ (py_globals (snd (install_and_import "kaggle" (start ["os"] [])))
        = py_globals (start ["os"] [])
      /\ exists ex e,
           fst (install_and_import "kaggle" (start ["os"] [])) = Raise ex
           /\ fst (builtin_import "kaggle" e) = Raise ex).
Proof. exact (name_bound_or_import_failed "kaggle" (start ["os"] [])). Defined.

Lemma pip_installs_top_level_packages_only_witness :
  exists top,
    top_level_of "torch.utils.data" top
    /\ py_runs (snd (check_package "torch.utils.data" (start ["os"] [])))
       = (py_runs (start ["os"] [])
          ++ if first_import_fails top (start ["os"] []) then [pip_install top] else [])%list.
Proof.
  exact (proj1 pip_installs_top_level_packages_only "torch.utils.data" (start ["os"] [])).
Defined.

Example toy_check_package :
  py_runs (snd (check_package "torch.utils.data" (start ["os"] [])))
    = [pip_install "torch"].
Proof. vm_compute. reflexivity. Qed.

Example toy_required_packages :
  py_runs (snd (check_required_packages (start ["argparse"; "os"; "subprocess"] [])))
    = [pip_install "kaggle"; pip_install "torch"; pip_install "torchvision"]
  /\ fst (check_required_packages (start ["argparse"; "os"; "subprocess"] [])) = Ok tt.
Proof. vm_compute. split; reflexivity. Qed.

End PythonRuns.
